(** * Two coursework notebooks: classical logic gates on quantum circuits,
      and a QAOA demo for the two-qubit Ising problem

    The development embeds the Python cells of the two notebooks
    (`Marianna Logic gates.ipynb` and `7.Variational_Circuits.ipynb`).
    Python exceptions are values of [exn], a call is a computation in the
    [result] monad, the global namespace of a notebook is a finite map from
    names to values, and a cell that does not parse binds nothing. *)

From Stdlib Require Import ZArith QArith_base List Bool Lia.
From stdpp Require Import gmap strings list fin_maps.

Local Open Scope string_scope.
Local Open Scope Z_scope.

(** ** Python exceptions and fallible computations *)

(** The exception classes that the notebooks can meet.  [DimensionError] is
    the failure kind named by the specification; no code path constructs it,
    and it is part of the type so that statements about it can be written. *)
Inductive exn : Type :=
| SyntaxError
| NameError (name : string)
| TypeError
| IndexError
| ValueError
| OverflowError
| AttributeError
| QiskitError
| AquaError
| DimensionError.

Inductive result (A : Type) : Type :=
| Ok (a : A)
| Raise (e : exn).

Arguments Ok {A} a.
Arguments Raise {A} e.

(** An exception raised by a sub-expression propagates to the caller. *)
Definition bind {A B} (m : result A) (k : A -> result B) : result B :=
  match m with
  | Ok a => k a
  | Raise e => Raise e
  end.

Notation "'let!' x ':=' m 'in' k" := (bind m (fun x => k))
  (at level 10, x pattern, m at level 100, k at level 200).

Definition is_ok {A} (r : result A) : bool :=
  match r with Ok _ => true | Raise _ => false end.

Definition no_DimensionError {A} (r : result A) : Prop := r <> Raise DimensionError.

(** ** The circuit SDK, as far as the logic-gate notebook uses it

    The notebook builds circuits out of [x], [cx] and [measure] on fresh
    registers and runs one shot on the `qasm_simulator` backend.  Every gate
    it can append permutes the computational basis, so the register stays in
    a basis state and the shot is deterministic (the notebook's own comment:
    "Since the output will be deterministic, we can use just a single shot").
    The simulator below therefore carries one boolean per qubit. *)
Module Qiskit.

Record Register : Type := { size : nat }.

Definition QuantumRegister (n : nat) : Register := {| size := n |}.
Definition ClassicalRegister (n : nat) : Register := {| size := n |}.

(** [r[k]] for a literal index [k]. *)
Definition getitem (r : Register) (k : nat) : result nat :=
  if (k <? size r)%nat then Ok k else Raise IndexError.

Inductive Instruction : Type :=
| XGate (q : nat)
| CnotGate (ctl tgt : nat)
| ToffoliGate (ctl1 ctl2 tgt : nat)
| Measure (q c : nat).

Record QuantumCircuit : Type :=
  { num_qubits : nat; num_clbits : nat; data : list Instruction }.

(** [QuantumCircuit(q, c)] *)
Definition new_circuit (q c : Register) : QuantumCircuit :=
  {| num_qubits := size q; num_clbits := size c; data := [] |}.

Definition append (qc : QuantumCircuit) (i : Instruction) : QuantumCircuit :=
  {| num_qubits := num_qubits qc; num_clbits := num_clbits qc;
     data := data qc ++ [i] |}.

(** The gate methods take their positional arguments as a list: Python
    checks the number of arguments against the signature at the call and
    raises [TypeError] when they do not match.  [x(qubit)], [cx(ctl, tgt)],
    [ccx(ctl1, ctl2, tgt)] and [measure(qubit, cbit)].  A gate on several
    qubits rejects a qubit named twice (the SDK's [CircuitError], one of its
    [QiskitError]s). *)
Definition x (qc : QuantumCircuit) (args : list nat) : result QuantumCircuit :=
  match args with
  | [q] => Ok (append qc (XGate q))
  | _ => Raise TypeError
  end.

Definition cx (qc : QuantumCircuit) (args : list nat) : result QuantumCircuit :=
  match args with
  | [ctl; tgt] =>
      if (ctl =? tgt)%nat then Raise QiskitError
      else Ok (append qc (CnotGate ctl tgt))
  | _ => Raise TypeError
  end.

Definition ccx (qc : QuantumCircuit) (args : list nat) : result QuantumCircuit :=
  match args with
  | [ctl1; ctl2; tgt] =>
      if (ctl1 =? ctl2)%nat || (ctl1 =? tgt)%nat || (ctl2 =? tgt)%nat
      then Raise QiskitError
      else Ok (append qc (ToffoliGate ctl1 ctl2 tgt))
  | _ => Raise TypeError
  end.

Definition measure (qc : QuantumCircuit) (args : list nat) : result QuantumCircuit :=
  match args with
  | [q; c] => Ok (append qc (Measure q c))
  | _ => Raise TypeError
  end.

(** *** One shot of the simulator *)

Record State : Type := { qubits : list bool; clbits : list bool }.

(** Qubits start in [|0>] and classical bits at 0; a classical bit that no
    measurement writes keeps its 0 and is reported as such. *)
Definition initial_state (qc : QuantumCircuit) : State :=
  {| qubits := replicate (num_qubits qc) false;
     clbits := replicate (num_clbits qc) false |}.

(** An operand that names no bit of the register is rejected by the SDK
    with its own error class. *)
Definition read (bits : list bool) (k : nat) : result bool :=
  match bits !! k with
  | Some b => Ok b
  | None => Raise QiskitError
  end.

Definition flip (bits : list bool) (k : nat) : result (list bool) :=
  let! b := read bits k in Ok (<[k := negb b]> bits).

(** A controlled flip: every operand must name a qubit, also when the
    control is off. *)
Definition flip_if (ctl : bool) (bits : list bool) (k : nat) : result (list bool) :=
  let! b := read bits k in
  Ok (if ctl then <[k := negb b]> bits else bits).

Definition apply (s : State) (i : Instruction) : result State :=
  match i with
  | XGate q =>
      let! qs := flip (qubits s) q in
      Ok {| qubits := qs; clbits := clbits s |}
  | CnotGate ctl tgt =>
      let! b := read (qubits s) ctl in
      let! qs := flip_if b (qubits s) tgt in
      Ok {| qubits := qs; clbits := clbits s |}
  | ToffoliGate ctl1 ctl2 tgt =>
      let! b1 := read (qubits s) ctl1 in
      let! b2 := read (qubits s) ctl2 in
      let! qs := flip_if (b1 && b2) (qubits s) tgt in
      Ok {| qubits := qs; clbits := clbits s |}
  | Measure q c =>
      let! b := read (qubits s) q in
      let! _ := read (clbits s) c in
      Ok {| qubits := qubits s; clbits := <[c := b]> (clbits s) |}
  end.

Fixpoint run (s : State) (prog : list Instruction) : result State :=
  match prog with
  | [] => Ok s
  | i :: rest => let! s' := apply s i in run s' rest
  end.

Definition bit_char (b : bool) : string := if b then "1" else "0".

(** The classical register is printed with bit 0 rightmost. *)
Definition bitstring (bits : list bool) : string :=
  fold_left (fun acc b => bit_char b +:+ acc) bits "".

Definition run_shot (qc : QuantumCircuit) : result string :=
  let! s := run (initial_state qc) (data qc) in Ok (bitstring (clbits s)).

(** The result of a job: the per-shot memory (kept only on request) and
    the histogram of outcomes, in insertion order. *)
Record Result : Type :=
  { memory : option (list string); counts : list (string * nat) }.

(** [execute(qc, backend, shots=n, memory=m).result()] on the
    `qasm_simulator` backend; a job of no shots is rejected. *)
Definition execute (qc : QuantumCircuit) (shots : nat) (mem : bool) : result Result :=
  match shots with
  | O => Raise QiskitError
  | _ =>
      let! out := run_shot qc in
      Ok {| memory := if mem then Some (replicate shots out) else None;
            counts := [(out, shots)] |}
  end.

(** [result.get_memory()[0]] *)
Definition get_memory_0 (r : Result) : result string :=
  match memory r with
  | None => Raise QiskitError
  | Some [] => Raise IndexError
  | Some (s :: _) => Ok s
  end.

(** [next(iter(result.get_counts()))]; an empty histogram is reported
    by the SDK as an error. *)
Definition first_count_key (r : Result) : result string :=
  match counts r with
  | [] => Raise QiskitError
  | (s, _) :: _ => Ok s
  end.

End Qiskit.

(** ** The notebook `Marianna Logic gates.ipynb` *)
Module LogicGates.
Import Qiskit.

(** [NOT(input)]: the example the exercise sheet provides. *)
Definition NOT (input : string) : result string :=
  let q := QuantumRegister 1 in
  let c := ClassicalRegister 1 in
  let qc := new_circuit q c in
  let! qc := (if String.eqb input "1"
              then let! q0 := getitem q 0 in x qc [q0]
              else Ok qc) in
  let! q0 := getitem q 0 in
  let! qc := x qc [q0] in
  let! q0 := getitem q 0 in
  let! c0 := getitem c 0 in
  let! qc := measure qc [q0; c0] in
  let! job := execute qc 1 false in
  let! output := first_count_key job in
  Ok output.

(** [XOR(input1, input2)]: qubit 0 is flipped when the inputs differ, a
    [cx] copies it onto qubit 1, which is measured. *)
Definition XOR (input1 input2 : string) : result string :=
  let q := QuantumRegister 2 in
  let c := ClassicalRegister 1 in
  let qc := new_circuit q c in
  let! qc := (if negb (String.eqb input1 input2)
              then let! q0 := getitem q 0 in x qc [q0]
              else Ok qc) in
  let! q0 := getitem q 0 in
  let! q1 := getitem q 1 in
  let! qc := cx qc [q0; q1] in
  let! q1 := getitem q 1 in
  let! c0 := getitem c 0 in
  let! qc := measure qc [q1; c0] in
  let! job := execute qc 1 true in
  let! output := get_memory_0 job in
  Ok output.

(** [OR(input1, input2)]: the condition is valid Python; the call
    [qc.cx(q[0],q[1],q[2])] passes three qubits to the two-qubit gate. *)
Definition OR (input1 input2 : string) : result string :=
  let q := QuantumRegister 3 in
  let c := ClassicalRegister 1 in
  let qc := new_circuit q c in
  let! qc := (if negb (String.eqb input1 "0") || negb (String.eqb input2 "0")
              then let! q0 := getitem q 0 in x qc [q0]
              else Ok qc) in
  let! q0 := getitem q 0 in
  let! q1 := getitem q 1 in
  let! q2 := getitem q 2 in
  let! qc := cx qc [q0; q1; q2] in
  let! q2 := getitem q 2 in
  let! c0 := getitem c 0 in
  let! qc := measure qc [q2; c0] in
  let! job := execute qc 1 true in
  let! output := get_memory_0 job in
  Ok output.

(** The circuit that [FANOUT] hands to the simulator: three qubits, two
    classical bits, and nothing appended. *)
Definition FANOUT_circuit (input : string) : QuantumCircuit :=
  let q := QuantumRegister 3 in
  let c := ClassicalRegister 2 in
  new_circuit q c.

Definition FANOUT (input : string) : result string :=
  let qc := FANOUT_circuit input in
  let! job := execute qc 1 true in
  let! output := get_memory_0 job in
  Ok output.

(** *** The cells and the global namespace

    A [def] cell binds its name to a function of the positional
    arguments.  The cells of [AND] and [NAND] are not Python: the header
    `if input1=="1" AND` ends the line after an identifier, and the next
    line is `input2="1":` (resp. `if input1=="1" OR` / `input2=="1":`).
    The interpreter rejects such a cell as a whole with [SyntaxError] and
    binds nothing. *)
Abbreviation pyfun := (list string -> result string).

Inductive cell : Type :=
| Def (name : string) (f : pyfun)
| Unparsable.

Definition unary (f : string -> result string) : pyfun :=
  fun args => match args with [a] => f a | _ => Raise TypeError end.

Definition binary (f : string -> string -> result string) : pyfun :=
  fun args => match args with [a; b] => f a b | _ => Raise TypeError end.

Definition cells : list cell :=
  [ Def "NOT" (unary NOT);
    Def "XOR" (binary XOR);
    Unparsable (* AND *);
    Unparsable (* NAND *);
    Def "OR" (binary OR);
    Def "FANOUT" (unary FANOUT) ].

Definition run_cell (globals : gmap string pyfun) (c : cell)
  : gmap string pyfun * option exn :=
  match c with
  | Def name f => (<[name := f]> globals, None)
  | Unparsable => (globals, Some SyntaxError)
  end.

(** Each cell is run on its own, so a failing cell does not stop the
    later ones. *)
Definition run_cells (cs : list cell) : gmap string pyfun :=
  fold_left (fun g c => fst (run_cell g c)) cs ∅.

Definition globals : gmap string pyfun := run_cells cells.

(** [name(args)] at top level. *)
Definition call (g : gmap string pyfun) (name : string) (args : list string)
  : result string :=
  match g !! name with
  | Some f => f args
  | None => Raise (NameError name)
  end.

(** The test cell: the calls of its loops, in order.  The cell prints one
    line per call and stops at the first exception. *)
Definition bits : list string := ["0"; "1"].

Definition pairs : list (list string) :=
  input1 ← bits; input2 ← bits; [[input1; input2]].

Definition tests : list (string * list string) :=
  ((fun input => ("NOT", [input])) <$> bits)
  ++ ((fun p => ("XOR", p)) <$> pairs)
  ++ ((fun p => ("AND", p)) <$> pairs)
  ++ ((fun p => ("NAND", p)) <$> pairs)
  ++ ((fun p => ("OR", p)) <$> pairs)
  ++ ((fun input => ("FANOUT", [input])) <$> bits).

Fixpoint run_tests (g : gmap string pyfun) (ts : list (string * list string))
  : list string * option exn :=
  match ts with
  | [] => ([], None)
  | (name, args) :: rest =>
      match call g name args with
      | Ok out => let '(outs, e) := run_tests g rest in (out :: outs, e)
      | Raise e => ([], Some e)
      end
  end.

End LogicGates.

(** ** numpy arrays, as far as the QAOA notebook uses them *)
Module Numpy.

(** Sizes and indices are Python integers, which have no bound; numpy
    converts them to signed 64-bit integers. *)
Definition int64 (i : Z) : bool := (- 2 ^ 63 <=? i) && (i <? 2 ^ 63).

(** The largest number of 8-byte elements whose size in bytes is below
    [2 ^ 63]: an array of [2 ^ 60] elements or more is rejected as too big,
    whatever the machine. *)
Definition too_big (elements : Z) : bool := 2 ^ 60 <=? elements.

(** Below that limit the code's allocation succeeds or raises [MemoryError]
    according to the free memory of the machine.  The model grants every
    allocation; the statements about array sizes are made for at most
    [max_elements] elements (8 MiB), which the allocator is taken to
    grant. *)
Definition max_elements : Z := 2 ^ 20.

(** [np.zeros(n)]: a negative length and a length that is too big are
    rejected. *)
Definition zeros (n : Z) : result (list Q) :=
  if (n <? 0) || too_big n then Raise ValueError
  else Ok (replicate (Z.to_nat n) 0%Q).

(** [np.zeros((n, m))]: the size that counts is the product of the
    dimensions other than 0. *)
Definition zeros2 (n m : Z) : result (list (list Q)) :=
  if (n <? 0) || (m <? 0)
     || too_big ((if n =? 0 then 1 else n) * (if m =? 0 then 1 else m))
  then Raise ValueError
  else Ok (replicate (Z.to_nat n) (replicate (Z.to_nat m) 0%Q)).

(** Index normalisation of an array: an index that does not fit 64 bits
    raises [OverflowError]; an index in [[-len, 0)] counts from the end;
    anything else outside [[0, len)] raises [IndexError]. *)
Definition index (len : nat) (i : Z) : result nat :=
  if negb (int64 i) then Raise OverflowError
  else if (0 <=? i) && (i <? Z.of_nat len) then Ok (Z.to_nat i)
  else if (- Z.of_nat len <=? i) && (i <? 0) then Ok (Z.to_nat (Z.of_nat len + i))
  else Raise IndexError.

(** [a[i]].  The same reading serves the Python lists of angles in
    [create_circuit]: their indices come from [range(p)] and reach the
    length of the list, where both kinds of sequence raise [IndexError],
    long before they leave 64 bits. *)
Definition getitem {A} (a : list A) (i : Z) : result A :=
  let! k := index (length a) i in
  match a !! k with
  | Some v => Ok v
  | None => Raise IndexError
  end.

Definition setitem {A} (a : list A) (i : Z) (v : A) : result (list A) :=
  let! k := index (length a) i in
  Ok (<[k := v]> a).

(** [range(n)] *)
Definition range (n : Z) : list Z := seqZ 0 n.

End Numpy.

(** ** Operators and evolution circuits of the SDK, as far as the QAOA
       notebook uses them

    None of these objects is ever simulated by the notebook's functions:
    they are built, added and passed on.  An operator is kept as the list of
    its weighted terms and a circuit as the list of its instructions. *)
Module Aqua.

(** [Pauli(z, x)]: two boolean vectors of the same length. *)
Record Pauli : Type := { z : list bool; x : list bool }.

Definition truthy (v : Q) : bool := negb (Qeq_bool v 0).

(** The constructor with positional arguments [z] and [x]; an argument
    left out is [None], and the two vectors must have one length. *)
Definition Pauli_init (zv xv : option (list Q)) : result Pauli :=
  match zv, xv with
  | Some zs, Some xs =>
      if (length zs =? length xs)%nat
      then Ok {| z := truthy <$> zs; x := truthy <$> xs |}
      else Raise QiskitError
  | _, _ => Raise QiskitError
  end.

(** [a * b] on Pauli objects: componentwise exclusive or (the phase is
    not part of the object). *)
Definition Pauli_mul (a b : Pauli) : result Pauli :=
  if (length (z a) =? length (z b))%nat
  then Ok {| z := zip_with xorb (z a) (z b); x := zip_with xorb (x a) (x b) |}
  else Raise QiskitError.

Definition Pauli_eqb (a b : Pauli) : bool :=
  bool_decide (z a = z b) && bool_decide (x a = x b).

(** A weighted sum of Pauli strings: each string occurs once, in the order
    of its first occurrence. *)
Record WeightedPauliOperator : Type := { paulis : list (Q * Pauli) }.

(** Adding one weighted string to a list of terms: the weight goes to the
    term of that string if there is one, and a new term is appended
    otherwise. *)
Fixpoint merge (terms : list (Q * Pauli)) (w : Q) (P : Pauli) : list (Q * Pauli) :=
  match terms with
  | [] => [(w, P)]
  | (w', P') :: rest =>
      if Pauli_eqb P' P then ((w' + w)%Q, P') :: rest
      else (w', P') :: merge rest w P
  end.

Definition merge_all (terms more : list (Q * Pauli)) : list (Q * Pauli) :=
  fold_left (fun acc t => merge acc (fst t) (snd t)) more terms.

Definition nonzero (t : Q * Pauli) : bool := negb (Qeq_bool (fst t) 0).

(** [WeightedPauliOperator(paulis)]: the constructor merges the terms on
    equal strings and drops the terms of weight 0. *)
Definition WeightedPauliOperator_init (terms : list (Q * Pauli))
  : WeightedPauliOperator :=
  {| paulis := List.filter nonzero (merge_all [] terms) |}.

(** [a + b]: the terms of [b] are merged into those of [a]; weights that
    cancel are dropped. *)
Definition operator_add (a b : WeightedPauliOperator) : WeightedPauliOperator :=
  {| paulis := List.filter nonzero (merge_all (paulis a) (paulis b)) |}.

(** An operator without terms. *)
Definition is_empty (op : WeightedPauliOperator) : bool :=
  match paulis op with [] => true | _ => false end.

Record QuantumRegister : Type := { name : string; size : nat }.

(** The request that [WeightedPauliOperator.evolve] turns into gates. *)
Record Evolution : Type :=
  { hamiltonian : WeightedPauliOperator;
    evo_time : Q;
    num_time_slices : nat;
    expansion_mode : string;
    expansion_order : nat;
    quantum_registers : QuantumRegister }.

Record QuantumCircuit : Type :=
  { qregs : list QuantumRegister; data : list Evolution }.

(** [QuantumCircuit(reg)] *)
Definition new_circuit (reg : QuantumRegister) : QuantumCircuit :=
  {| qregs := [reg]; data := [] |}.

Definition same_register (a b : QuantumRegister) : bool :=
  String.eqb (name a) (name b) && (size a =? size b)%nat.

Definition compatible (a b : QuantumRegister) : bool :=
  negb (String.eqb (name a) (name b)) || (size a =? size b)%nat.

(** [a + b] on circuits: registers of one name must agree; the result has
    the registers of both and the instructions of [a] followed by those
    of [b]. *)
Definition circuit_add (a b : QuantumCircuit) : result QuantumCircuit :=
  if forallb (fun ra => forallb (compatible ra) (qregs b)) (qregs a)
  then Ok {| qregs := qregs a
               ++ filter (fun rb => negb (existsb (same_register rb) (qregs a)))
                         (qregs b);
             data := data a ++ data b |}
  else Raise QiskitError.

End Aqua.

(** ** The notebook `7.Variational_Circuits.ipynb` *)
Module Variational.
Import Aqua.

(** The objects a global name can be bound to. *)
Inductive value : Type :=
| VNone
| VInt (n : Z)
| VFloat (v : Q)
| VArray (a : list Q)
| VMatrix (m : list (list Q))
| VOperator (op : WeightedPauliOperator)
| VRegister (r : QuantumRegister)
| VCircuit (c : QuantumCircuit)
| VOptimizeResult (x : list Q) (f : Q) (success : bool).

(** Reading a global name. *)
Definition lookup (g : gmap string value) (name : string) : result value :=
  match g !! name with
  | Some v => Ok v
  | None => Raise (NameError name)
  end.

Definition as_int (v : value) : result Z :=
  match v with VInt n => Ok n | _ => Raise TypeError end.

(** [v[i]] *)
Definition subscript (v : value) (i : Z) : result value :=
  match v with
  | VArray a => let! e := Numpy.getitem a i in Ok (VFloat e)
  | VMatrix m => let! row := Numpy.getitem m i in Ok (VArray row)
  | _ => Raise TypeError
  end.

(** An argument of [Pauli(...)] must be a vector: [None] is rejected by the
    constructor, and an object without a length (the scalar that indexing a
    vector gives) by Python. *)
Definition as_vector (v : value) : result (list Q) :=
  match v with
  | VArray a => Ok a
  | VNone => Raise QiskitError
  | _ => Raise TypeError
  end.

(** The number held by a scalar. *)
Definition as_float (v : value) : result Q :=
  match v with
  | VFloat f => Ok f
  | VInt n => Ok (inject_Z n)
  | _ => Raise TypeError
  end.

(** [a + b] *)
Definition add (a b : value) : result value :=
  match a, b with
  | VInt m, VInt n => Ok (VInt (m + n))
  | VOperator o1, VOperator o2 => Ok (VOperator (operator_add o1 o2))
  | VCircuit c1, VCircuit c2 => let! c := circuit_add c1 c2 in Ok (VCircuit c)
  | _, _ => Raise TypeError
  end.

(** [sum(items, start)] *)
Fixpoint sum (items : list value) (start : value) : result value :=
  match items with
  | [] => Ok start
  | item :: rest => let! acc := add start item in sum rest acc
  end.

(** A comprehension [[f(i) for i in l]] stops at the first exception. *)
Fixpoint comprehension {A B} (f : A -> result B) (l : list A) : result (list B) :=
  match l with
  | [] => Ok []
  | a :: rest =>
      let! b := f a in
      let! bs := comprehension f rest in
      Ok (b :: bs)
  end.

(** [pauli_x(n_qubits, qubit_index, coeff)] *)
Definition pauli_x (n_qubits qubit_index : Z) (coeff : Q) : result WeightedPauliOperator :=
  let! xr := Numpy.zeros n_qubits in
  let! yr := Numpy.zeros n_qubits in
  let! old := Numpy.getitem yr qubit_index in
  let! yr := Numpy.setitem yr qubit_index (old + 1)%Q in
  let! pauli := Pauli_init (Some xr) (Some yr) in
  let! first := Pauli_init (Some xr) (Some yr) in
  let paulioperator := WeightedPauliOperator_init [(0%Q, first); (coeff, pauli)] in
  Ok paulioperator.

(** [product_pauli_z(q1, q2, coeff)]: reads the global [n_qubits], and the
    names [p1] and [p2], which no cell binds. *)
Definition product_pauli_z (g : gmap string value) (q1 q2 : Z) (coeff : Q)
  : result WeightedPauliOperator :=
  let! n := lookup g "n_qubits" in
  let! n := as_int n in
  let! zero_n_qubit := Numpy.zeros n in
  let! particle1 := Numpy.zeros2 n n in
  let! particle2 := Numpy.zeros2 n n in
  (* particle1[0][q1] = particle1[0][q1]+1 *)
  let! row := Numpy.getitem particle1 0 in
  let! old := Numpy.getitem row q1 in
  let! row := Numpy.getitem particle1 0 in
  let! row := Numpy.setitem row q1 (old + 1)%Q in
  let! particle1 := Numpy.setitem particle1 0 row in
  (* particle1[0][q2] = particle1[0][q1]+1 *)
  let! row := Numpy.getitem particle1 0 in
  let! old := Numpy.getitem row q1 in
  let! row := Numpy.getitem particle1 0 in
  let! row := Numpy.setitem row q2 (old + 1)%Q in
  let! particle1 := Numpy.setitem particle1 0 row in
  (* object1 = Pauli(p1[0], p1[1]) *)
  let! p1 := lookup g "p1" in
  let! a := subscript p1 0 in
  let! p1 := lookup g "p1" in
  let! b := subscript p1 1 in
  let! a := as_vector a in
  let! b := as_vector b in
  let! object1 := Pauli_init (Some a) (Some b) in
  (* object2 = Pauli(p2[0], p2[1]) *)
  let! p2 := lookup g "p2" in
  let! a := subscript p2 0 in
  let! p2 := lookup g "p2" in
  let! b := subscript p2 1 in
  let! a := as_vector a in
  let! b := as_vector b in
  let! object2 := Pauli_init (Some a) (Some b) in
  let! pauliproduct := Pauli_mul object1 object2 in
  (* [[coeff, pauliproduct], [0, Pauli(zero_n_qubit)]] *)
  let! last := Pauli_init (Some zero_n_qubit) None in
  Ok (WeightedPauliOperator_init [(coeff, pauliproduct); (0%Q, last)]).

(** [evolve(hamiltonian, angle, qr)]: the method is looked up on the
    first argument; the order and the mode are the constants written in
    the call.  The SDK refuses to evolve an operator without terms.  Whether
    the operator acts on as many qubits as the register has is not looked
    at here; the statements about [evolve] are made for operators that
    fit the register. *)
Definition evolve (hamiltonian : value) (angle : Q) (qr : value) : result value :=
  match hamiltonian with
  | VOperator op =>
      if is_empty op then Raise AquaError else
      match qr with
      | VRegister r =>
          Ok (VCircuit
                {| qregs := [r];
                   data := [ {| hamiltonian := op;
                                evo_time := angle;
                                num_time_slices := 1;
                                expansion_mode := "trotter";
                                expansion_order := 3;
                                quantum_registers := r |} ] |})
      | _ => Raise TypeError
      end
  | _ => Raise AttributeError
  end.

(** [create_circuit(beta, gamma)]: [p], [Hc], [qr], [Hm] and
    [circuit_init] are globals; the comprehension is evaluated before the
    start value of [sum]. *)
Definition create_circuit (g : gmap string value) (beta gamma : list Q) : result value :=
  let! p := lookup g "p" in
  let! p := as_int p in
  let! items :=
    comprehension
      (fun i =>
         let! Hc := lookup g "Hc" in
         let! b := Numpy.getitem beta i in
         let! qr := lookup g "qr" in
         let! c1 := evolve Hc b qr in
         let! Hm := lookup g "Hm" in
         let! c := Numpy.getitem gamma i in
         let! qr := lookup g "qr" in
         let! c2 := evolve Hm c qr in
         add c1 c2)
      (Numpy.range p) in
  let! circuit_init := lookup g "circuit_init" in
  let! circuit_evolv := sum items circuit_init in
  Ok circuit_evolv.

(** [x, y = beta_gamma] *)
Definition unpack2 (v : list Q) : result (Q * Q) :=
  match v with
  | [x; y] => Ok (x, y)
  | _ => Raise ValueError
  end.

(** [evaluate_circuit(beta_gamma)]: the body ends after the assignment of
    [quantum_circuit]; a function that falls off its end returns [None]. *)
Definition evaluate_circuit (g : gmap string value) (beta_gamma : list Q) : result value :=
  let! (x, y) := unpack2 beta_gamma in
  let! quantum_circuit := create_circuit g [x] [y] in
  Ok VNone.

(** *** The optimizer *)

(** Modelled from the spec: the derivative-free optimizer loop (the
    notebook imports it from a numerical library).  It evaluates the
    objective at the start vector, then at each proposed vector, until the
    convergence test holds or the iteration budget is used up, and reports
    the best vector found; an exception of the objective propagates.  The
    proposal rule, the convergence test and what the library makes of the
    object that the objective returns ([to_number]) are parameters. *)
Section Minimize.
Variable objective : list Q -> result value.
Variable to_number : value -> result Q.
Variable propose : list (list Q * Q) -> list Q.
Variable converged : list (list Q * Q) -> bool.

Definition better (a b : list Q * Q) : list Q * Q :=
  if Qle_bool (snd a) (snd b) then a else b.

Definition report (ok : bool) (last : list Q * Q) (history : list (list Q * Q)) : value :=
  let best := fold_left better history last in
  VOptimizeResult (fst best) (snd best) ok.

Fixpoint iterate (budget : nat) (history : list (list Q * Q)) (x : list Q)
  : result value :=
  let! v := objective x in
  let! fx := to_number v in
  if converged ((x, fx) :: history) then Ok (report true (x, fx) history)
  else match budget with
       | O => Ok (report false (x, fx) history)
       | S budget => iterate budget ((x, fx) :: history)
                             (propose ((x, fx) :: history))
       end.

Definition minimize (x0 : list Q) (maxiter : nat) : result value :=
  iterate maxiter [] x0.
End Minimize.

(** *** The cells and the global namespace

    A code cell is a sequence of assignments; the first exception ends the
    cell and keeps the bindings made so far.  Each cell is run on its own,
    so a failing cell does not stop the later ones. *)
Definition stmt : Type := string * (gmap string value -> result value).

Fixpoint exec (g : gmap string value) (body : list stmt)
  : gmap string value * option exn :=
  match body with
  | [] => (g, None)
  | (name, rhs) :: rest =>
      match rhs g with
      | Ok v => exec (<[name := v]> g) rest
      | Raise e => (g, Some e)
      end
  end.

Definition run_cells (cs : list (list stmt)) : gmap string value :=
  fold_left (fun g body => fst (exec g body)) cs ∅.

(** n_qubits = 2; identity = pauli_x(n_qubits, 0, 0);
    Hm = sum([pauli_x(n_qubits, i, -1) for i in range(n_qubits)], identity) *)
Definition cell_mixing : list stmt :=
  [ ("n_qubits", fun _ => Ok (VInt 2));
    ("identity", fun g =>
       let! n := lookup g "n_qubits" in
       let! n := as_int n in
       let! op := pauli_x n 0 0%Q in
       Ok (VOperator op));
    ("Hm", fun g =>
       let! n := lookup g "n_qubits" in
       let! n := as_int n in
       let! items :=
         comprehension
           (fun i =>
              let! n := lookup g "n_qubits" in
              let! n := as_int n in
              let! op := pauli_x n i (-1)%Q in
              Ok (VOperator op))
           (Numpy.range n) in
       let! identity := lookup g "identity" in
       sum items identity) ].

(** [itertools.product(l, repeat=2)] *)
Definition product2 (l : list Z) : list (Z * Z) :=
  i ← l; j ← l; [(i, j)].

(** J = np.array([[0,1],[0,0]]);
    Hc = sum([product_pauli_z(i, j, -J[i,j])
              for i,j in itertools.product(range(n_qubits), repeat=2)], identity) *)
Definition cell_cost : list stmt :=
  [ ("J", fun _ => Ok (VMatrix [[0%Q; 1%Q]; [0%Q; 0%Q]]));
    ("Hc", fun g =>
       let! n := lookup g "n_qubits" in
       let! n := as_int n in
       let! items :=
         comprehension
           (fun '(i, j) =>
              let! J := lookup g "J" in
              let! row := subscript J i in
              let! Jij := subscript row j in
              let! Jij := as_float Jij in
              let! op := product_pauli_z g i j (- Jij)%Q in
              Ok (VOperator op))
           (product2 (Numpy.range n)) in
       let! identity := lookup g "identity" in
       sum items identity) ].

(** p = 1; beta = np.random.uniform(0, np.pi*2, p);
    gamma = np.random.uniform(0, np.pi*2, p).  The two draws are inputs of
    the run. *)
Definition cell_parameters (beta0 gamma0 : Q) : list stmt :=
  [ ("p", fun _ => Ok (VInt 1));
    ("beta", fun _ => Ok (VArray [beta0]));
    ("gamma", fun _ => Ok (VArray [gamma0])) ].

(** qub = QuantumRegister(n_qubits); circuit_init = QuantumCircuit(qub).
    The register is the first one created, which the SDK names [q0]; its
    size must be positive. *)
Definition cell_init : list stmt :=
  [ ("qub", fun g =>
       let! n := lookup g "n_qubits" in
       let! n := as_int n in
       if n <=? 0 then Raise QiskitError
       else Ok (VRegister {| name := "q0"; size := Z.to_nat n |}));
    ("circuit_init", fun g =>
       let! qub := lookup g "qub" in
       match qub with
       | VRegister r => Ok (VCircuit (new_circuit r))
       | _ => Raise QiskitError
       end) ].

Definition as_array (v : value) : result (list Q) :=
  match v with VArray a => Ok a | _ => Raise TypeError end.

(** result = minimize(evaluate_circuit, np.concatenate([beta, gamma]),
                      method='COBYLA') *)
Definition cell_minimize (to_number : value -> result Q)
    (propose : list (list Q * Q) -> list Q)
    (converged : list (list Q * Q) -> bool) (maxiter : nat) : list stmt :=
  [ ("result", fun g =>
       let! beta := lookup g "beta" in
       let! gamma := lookup g "gamma" in
       let! beta := as_array beta in
       let! gamma := as_array gamma in
       minimize (evaluate_circuit g) to_number propose converged
                (beta ++ gamma) maxiter) ].

(** The namespace in which the optimisation cell is run, as far as the
    assignments of the cells go.  The names bound by the import cell and by
    the [def] cells are bound in the notebook too; they are never assigned
    again, and here they are the definitions above rather than entries of
    this map. *)
Definition globals (beta0 gamma0 : Q) : gmap string value :=
  run_cells [cell_mixing; cell_cost; cell_parameters beta0 gamma0; cell_init].

(** A namespace in which every name read by [create_circuit] is bound: the
    notebook's, with [Hc] bound to the Ising term [-Z0 Z1] and [qr] to the
    register of [circuit_init]. *)
Definition ising : WeightedPauliOperator :=
  {| paulis := [((-1)%Q, {| z := [true; true]; x := [false; false] |})] |}.

Definition bound_globals (beta0 gamma0 : Q) : gmap string value :=
  <["qr" := VRegister {| name := "q0"; size := 2 |}]>
    (<["Hc" := VOperator ising]> (globals beta0 gamma0)).

End Variational.

(** ** The remaining cells of `7.Variational_Circuits.ipynb` *)
Module VariationalCells.
Import Aqua Variational.

(** [pauli_z(n_qubits, qubit_index, coeff)].  The first [Pauli] is bound to
    the local [paulioperator]; the term list then reads the name [pauli],
    which is not a local of this function, so it is looked up among the
    globals.  What the SDK's constructor makes of the object found there is
    the parameter [construct]. *)
Section PauliZ.
Variable construct : Q -> value -> Pauli -> result WeightedPauliOperator.

Definition pauli_z (g : gmap string value) (n_qubits qubit_index : Z) (coeff : Q)
  : result WeightedPauliOperator :=
  let! xr := Numpy.zeros n_qubits in
  let! yr := Numpy.zeros n_qubits in
  let! old := Numpy.getitem xr qubit_index in
  let! xr := Numpy.setitem xr qubit_index (old + 1)%Q in
  let! paulioperator := Pauli_init (Some xr) (Some yr) in
  let! pauli := lookup g "pauli" in
  let! last := Pauli_init (Some yr) (Some yr) in
  construct coeff pauli last.
End PauliZ.

(** [a[:p]] and [a[p:]]: a negative bound counts from the end, and a bound
    outside the array is clipped. *)
Definition slice_bound (len : nat) (p : Z) : nat :=
  if p <? 0 then Z.to_nat (Z.max 0 (Z.of_nat len + p))
  else Z.to_nat (Z.min p (Z.of_nat len)).

Definition slice_to {A} (a : list A) (p : Z) : list A :=
  take (slice_bound (length a) p) a.

Definition slice_from {A} (a : list A) (p : Z) : list A :=
  drop (slice_bound (length a) p) a.

(** [v['x']]: the optimizer's result is a dictionary; an array rejects a
    string index, a register accepts integers and slices only, and the other
    objects are not subscriptable. *)
Definition getitem_x (v : value) : result (list Q) :=
  match v with
  | VOptimizeResult x _ _ => Ok x
  | VArray _ | VMatrix _ => Raise IndexError
  | VRegister _ => Raise QiskitError
  | _ => Raise TypeError
  end.

(** The right-hand side of
    [circuit = create_circuit(result['x'][:p], result['x'][p:])]. *)
Definition analysis_circuit (g : gmap string value) : result value :=
  let! result := lookup g "result" in
  let! x := getitem_x result in
  let! p := lookup g "p" in
  let! p := as_int p in
  let beta := slice_to x p in
  let! result := lookup g "result" in
  let! x := getitem_x result in
  let! p := lookup g "p" in
  let! p := as_int p in
  let gamma := slice_from x p in
  create_circuit g beta gamma.

(** *** Reference values for the statements below *)

(** The evolution step that [evolve] requests for an operator, an angle and
    a register. *)
Definition evolution (op : WeightedPauliOperator) (angle : Q) (r : QuantumRegister)
  : Evolution :=
  {| hamiltonian := op; evo_time := angle; num_time_slices := 1;
     expansion_mode := "trotter"; expansion_order := 3; quantum_registers := r |}.

(** One cost step and one mixing step per pair of angles. *)
Definition layers (hc hm : WeightedPauliOperator) (r : QuantumRegister)
    (beta gamma : list Q) : list Evolution :=
  concat (zip_with (fun b c => [evolution hc b r; evolution hm c r]) beta gamma).

(** The circuit of one layer: a cost step and a mixing step on [r]. *)
Definition layer (hc hm : WeightedPauliOperator) (r : QuantumRegister) (b c : Q)
  : QuantumCircuit :=
  {| qregs := [r]; data := [evolution hc b r; evolution hm c r] |}.

(** The element that the comprehension of [create_circuit] computes for the
    index [i], under a name. *)
Definition create_circuit_item (g : gmap string value) (beta gamma : list Q) (i : Z)
  : result value :=
  let! Hc := lookup g "Hc" in
  let! b := Numpy.getitem beta i in
  let! qr := lookup g "qr" in
  let! c1 := evolve Hc b qr in
  let! Hm := lookup g "Hm" in
  let! c := Numpy.getitem gamma i in
  let! qr := lookup g "qr" in
  let! c2 := evolve Hm c qr in
  add c1 c2.

(** Every Pauli string of the operator acts on as many qubits as the
    register has. *)
Definition fits (op : WeightedPauliOperator) (r : QuantumRegister) : Prop :=
  Forall (fun t => length (z (snd t)) = size r) (paulis op).

(** The Pauli string with [X] on qubit [k] of [n] and the identity elsewhere. *)
Definition x_string (n k : nat) : Pauli :=
  {| z := replicate n false; x := <[k := true]> (replicate n false) |}.

End VariationalCells.

(** * Properties *)

Module LogicGatesFacts.
Import Qiskit LogicGates.

(** ** The simulator keeps the register a basis state of the same width *)

Lemma flip_if_length ctl bits k bits' :
  flip_if ctl bits k = Ok bits' -> length bits' = length bits.
Proof.
  unfold flip_if, read. destruct (bits !! k); simpl; [|discriminate].
  intros [= <-]. destruct ctl; [apply length_insert | reflexivity].
Qed.

Lemma apply_width s i s' :
  apply s i = Ok s' ->
  length (qubits s') = length (qubits s) /\ length (clbits s') = length (clbits s).
Proof.
  destruct i as [q | ctl tgt | ctl1 ctl2 tgt | q c]; simpl.
  - unfold flip, read. destruct (qubits s !! q); simpl; [|discriminate].
    intros [= <-]; simpl. split; [apply length_insert | reflexivity].
  - unfold read at 1. destruct (qubits s !! ctl); simpl; [|discriminate].
    destruct (flip_if _ _ _) eqn:E; simpl; [|discriminate].
    intros [= <-]; simpl. split; [eapply flip_if_length; eauto | reflexivity].
  - unfold read at 1. destruct (qubits s !! ctl1); simpl; [|discriminate].
    unfold read at 1. destruct (qubits s !! ctl2); simpl; [|discriminate].
    destruct (flip_if _ _ _) eqn:E; simpl; [|discriminate].
    intros [= <-]; simpl. split; [eapply flip_if_length; eauto | reflexivity].
  - unfold read. destruct (qubits s !! q); simpl; [|discriminate].
    destruct (clbits s !! c); simpl; [|discriminate].
    intros [= <-]; simpl. split; [reflexivity | apply length_insert].
Qed.

Lemma run_width prog : forall s s',
  run s prog = Ok s' ->
  length (qubits s') = length (qubits s) /\ length (clbits s') = length (clbits s).
Proof.
  induction prog as [|i rest IH]; simpl; intros s s'.
  - intros [= <-]. split; reflexivity.
  - destruct (apply s i) as [s1|e] eqn:E; simpl; [|discriminate].
    intros H. apply IH in H. apply apply_width in E.
    destruct H, E. split; congruence.
Qed.

(** ** The gates that the notebook defines *)

(** [NOT] on any string: everything but ['1'] is encoded as [|0>]. *)
Lemma NOT_spec input :
  NOT input = Ok (if String.eqb input "1" then "0" else "1").
Proof. unfold NOT. destruct (String.eqb input "1"); reflexivity. Qed.

(** [XOR] on any two strings compares them. *)
Lemma XOR_spec input1 input2 :
  XOR input1 input2 = Ok (if String.eqb input1 input2 then "0" else "1").
Proof. unfold XOR. destruct (String.eqb input1 input2); reflexivity. Qed.

(** [cx] accepts exactly two qubits. *)
Lemma cx_arity qc (args : list nat) :
  length args <> 2%nat -> cx qc args = Raise TypeError.
Proof.
  destruct args as [|a [|b [|c rest]]]; simpl; intros H;
    try reflexivity; contradiction H; reflexivity.
Qed.

(** [OR] stops at its three-argument [cx], whatever the inputs. *)
Lemma OR_raises input1 input2 : OR input1 input2 = Raise TypeError.
Proof.
  unfold OR.
  destruct (negb (String.eqb input1 "0") || negb (String.eqb input2 "0"));
    reflexivity.
Qed.

Lemma unbound_call name args :
  globals !! name = None -> call globals name args = Raise (NameError name).
Proof. unfold call. intros ->. reflexivity. Qed.

Lemma AND_unbound : globals !! "AND" = None.
Proof. vm_compute. reflexivity. Qed.

Lemma NAND_unbound : globals !! "NAND" = None.
Proof. vm_compute. reflexivity. Qed.

(** The test cell prints the two lines of [NOT] and the four of [XOR] and
    stops at the first call of [AND]. *)
Lemma test_cell_output :
  run_tests globals tests = (["1"; "0"; "0"; "1"; "1"; "0"], Some (NameError "AND")).
Proof. vm_compute. reflexivity. Qed.

(** C3. [NOT('0')] returns ['1'] and [NOT('1')] returns ['0']. *)
Theorem NOT_truth_table :
  NOT "0" = Ok "1" /\ NOT "1" = Ok "0".
Proof. split; rewrite NOT_spec; reflexivity. Qed.

(** C4. [XOR] returns ['0'] on equal inputs and ['1'] on different ones, for
    the four combinations of ['0'] and ['1']. *)
Theorem XOR_truth_table :
  XOR "0" "0" = Ok "0" /\ XOR "1" "1" = Ok "0" /\
  XOR "0" "1" = Ok "1" /\ XOR "1" "0" = Ok "1".
Proof. repeat split; rewrite XOR_spec; reflexivity. Qed.

(** C1. The truth tables of [AND], [OR] and [NAND] are not met: no call of
    one of them returns a string.  [OR] raises [TypeError] on every pair of
    inputs, and the names [AND] and [NAND] are unbound, their cells being
    rejected by the parser. *)
Theorem AND_OR_NAND_return_nothing :
  (forall input1 input2, call globals "OR" [input1; input2] = Raise TypeError) /\
  (forall input1 input2, call globals "AND" [input1; input2] = Raise (NameError "AND")) /\
  (forall input1 input2, call globals "NAND" [input1; input2] = Raise (NameError "NAND")).
Proof.
  split; [|split]; intros input1 input2.
  - change (call globals "OR" [input1; input2]) with (OR input1 input2).
    apply OR_raises.
  - apply unbound_call, AND_unbound.
  - apply unbound_call, NAND_unbound.
Qed.

(** C10, as stated, fails at the input ['0']: the classical register is
    never written, the simulator reports it as ['00'], and that is two
    copies of ['0']. *)
Lemma FANOUT_copies_zero :
  ~ (forall input, input ∈ bits -> FANOUT input <> Ok (input +:+ input)).
Proof.
  intros H. apply (H "0"); [|reflexivity].
  unfold bits. set_solver.
Qed.

(** C10, amended. [FANOUT] builds the same circuit, with no gate and no
    measurement, for every argument; its result does not depend on the
    argument, so it cannot be two copies of the input for both ['0'] and
    ['1']. *)
Theorem FANOUT_ignores_input :
  forall input1 input2,
    data (FANOUT_circuit input1) = [] /\
    FANOUT_circuit input1 = FANOUT_circuit input2 /\
    FANOUT input1 = FANOUT input2 /\
    ~ (FANOUT "0" = Ok ("0" +:+ "0") /\ FANOUT "1" = Ok ("1" +:+ "1")).
Proof.
  intros input1 input2. repeat split.
  intros [_ H]. discriminate H.
Qed.

End LogicGatesFacts.

Module VariationalFacts.
Import Aqua Variational.

(** ** Indexing *)

Lemma int64_true (i : Z) : - 2 ^ 63 <= i < 2 ^ 63 -> Numpy.int64 i = true.
Proof.
  intros H. unfold Numpy.int64.
  destruct (Z.leb_spec (- 2 ^ 63) i); [|lia].
  destruct (Z.ltb_spec i (2 ^ 63)); [reflexivity | lia].
Qed.

Lemma int64_false (i : Z) : ~ (- 2 ^ 63 <= i < 2 ^ 63) -> Numpy.int64 i = false.
Proof.
  intros H. unfold Numpy.int64.
  destruct (Z.leb_spec (- 2 ^ 63) i); [|reflexivity].
  destruct (Z.ltb_spec i (2 ^ 63)); [lia | reflexivity].
Qed.

Lemma index_in_range (len : nat) (i : Z) :
  Z.of_nat len <= 2 ^ 63 ->
  - Z.of_nat len <= i < Z.of_nat len ->
  exists k, Numpy.index len i = Ok k /\ (k < len)%nat.
Proof.
  intros Hlen H. unfold Numpy.index. rewrite int64_true by lia. cbn [negb].
  destruct (Z.leb_spec 0 i) as [Hi|Hi]; simpl.
  - destruct (Z.ltb_spec i (Z.of_nat len)); [|lia].
    exists (Z.to_nat i). split; [reflexivity | lia].
  - destruct (Z.leb_spec (- Z.of_nat len) i); [|lia].
    destruct (Z.ltb_spec i 0); [|lia]. simpl.
    exists (Z.to_nat (Z.of_nat len + i)). split; [reflexivity | lia].
Qed.

Lemma index_out_of_range (len : nat) (i : Z) :
  - 2 ^ 63 <= i < 2 ^ 63 ->
  ~ (- Z.of_nat len <= i < Z.of_nat len) ->
  Numpy.index len i = Raise IndexError.
Proof.
  intros Hi H. unfold Numpy.index. rewrite int64_true by lia. cbn [negb].
  destruct (Z.leb_spec 0 i); destruct (Z.ltb_spec i (Z.of_nat len)); simpl;
    try lia;
    destruct (Z.leb_spec (- Z.of_nat len) i); destruct (Z.ltb_spec i 0); simpl;
    try lia; reflexivity.
Qed.

Lemma index_overflow (len : nat) (i : Z) :
  ~ (- 2 ^ 63 <= i < 2 ^ 63) -> Numpy.index len i = Raise OverflowError.
Proof. intros H. unfold Numpy.index. rewrite int64_false by exact H. reflexivity. Qed.

Lemma zeros_ok (n : Z) :
  0 <= n < 2 ^ 60 -> Numpy.zeros n = Ok (replicate (Z.to_nat n) 0%Q).
Proof.
  intros H. unfold Numpy.zeros, Numpy.too_big.
  destruct (Z.ltb_spec n 0); [lia|]. destruct (Z.leb_spec (2 ^ 60) n); [lia|].
  reflexivity.
Qed.

Lemma zeros_rejected (n : Z) :
  n < 0 \/ 2 ^ 60 <= n -> Numpy.zeros n = Raise ValueError.
Proof.
  intros H. unfold Numpy.zeros, Numpy.too_big.
  destruct (Z.ltb_spec n 0); [reflexivity|].
  destruct (Z.leb_spec (2 ^ 60) n); [reflexivity | lia].
Qed.

Lemma max_elements_small (n : Z) : n <= Numpy.max_elements -> n < 2 ^ 60.
Proof. unfold Numpy.max_elements. lia. Qed.

(** ** [pauli_x] *)

Lemma pauli_x_in_range n qubit_index coeff :
  0 <= n < 2 ^ 60 -> - n <= qubit_index < n ->
  exists k, (k < Z.to_nat n)%nat /\
    Numpy.index (Z.to_nat n) qubit_index = Ok k /\
    pauli_x n qubit_index coeff =
      Ok (let P := {| z := replicate (Z.to_nat n) false;
                      x := <[k := true]> (replicate (Z.to_nat n) false) |} in
          WeightedPauliOperator_init [(0%Q, P); (coeff, P)]).
Proof.
  intros Hn Hi. unfold pauli_x. rewrite (zeros_ok n Hn). cbn [bind].
  unfold Numpy.getitem, Numpy.setitem. rewrite length_replicate.
  destruct (index_in_range (Z.to_nat n) qubit_index) as (k & Hk & Hlt); [lia | lia |].
  rewrite Hk. cbn [bind]. rewrite (lookup_replicate_2 _ _ _ Hlt). cbn [bind].
  unfold Pauli_init. rewrite length_insert, !length_replicate, Nat.eqb_refl.
  cbn [bind]. exists k. split; [exact Hlt|]. split; [reflexivity|].
  rewrite list_fmap_insert, !fmap_replicate. reflexivity.
Qed.

Lemma pauli_x_out_of_range n qubit_index coeff :
  0 <= n < 2 ^ 60 -> - 2 ^ 63 <= qubit_index < 2 ^ 63 ->
  ~ (- n <= qubit_index < n) ->
  pauli_x n qubit_index coeff = Raise IndexError.
Proof.
  intros Hn H64 Hi. unfold pauli_x. rewrite (zeros_ok n Hn). cbn [bind].
  unfold Numpy.getitem. rewrite length_replicate.
  rewrite index_out_of_range; [reflexivity | exact H64 | lia].
Qed.

Lemma pauli_x_overflow n qubit_index coeff :
  0 <= n < 2 ^ 60 -> ~ (- 2 ^ 63 <= qubit_index < 2 ^ 63) ->
  pauli_x n qubit_index coeff = Raise OverflowError.
Proof.
  intros Hn H64. unfold pauli_x. rewrite (zeros_ok n Hn). cbn [bind].
  unfold Numpy.getitem. rewrite index_overflow by exact H64. reflexivity.
Qed.

Lemma pauli_x_rejected_length n qubit_index coeff :
  n < 0 \/ 2 ^ 60 <= n -> pauli_x n qubit_index coeff = Raise ValueError.
Proof. intros Hn. unfold pauli_x. rewrite zeros_rejected by exact Hn. reflexivity. Qed.

(** ** No operation raises [DimensionError] *)

Lemma bind_no_DimensionError {A B} (m : result A) (k : A -> result B) :
  no_DimensionError m -> (forall a, no_DimensionError (k a)) ->
  no_DimensionError (bind m k).
Proof.
  unfold no_DimensionError. intros Hm Hk. destruct m as [a|e]; cbn [bind].
  - apply Hk.
  - intros [= ->]. apply Hm. reflexivity.
Qed.

Lemma Ok_no_DimensionError {A} (a : A) : no_DimensionError (Ok a).
Proof. discriminate. Qed.

Lemma zeros_no_DimensionError n : no_DimensionError (Numpy.zeros n).
Proof. unfold Numpy.zeros. destruct (_ || _); discriminate. Qed.

Lemma zeros2_no_DimensionError n m : no_DimensionError (Numpy.zeros2 n m).
Proof. unfold Numpy.zeros2. destruct (_ || _); discriminate. Qed.

Lemma index_no_DimensionError len i : no_DimensionError (Numpy.index len i).
Proof.
  unfold Numpy.index.
  destruct (negb _); [discriminate|]. destruct (_ && _); [discriminate|].
  destruct (_ && _); discriminate.
Qed.

Lemma getitem_no_DimensionError {A} (a : list A) i :
  no_DimensionError (Numpy.getitem a i).
Proof.
  unfold Numpy.getitem. apply bind_no_DimensionError;
    [apply index_no_DimensionError|].
  intros k. destruct (a !! k); discriminate.
Qed.

Lemma setitem_no_DimensionError {A} (a : list A) i v :
  no_DimensionError (Numpy.setitem a i v).
Proof.
  unfold Numpy.setitem. apply bind_no_DimensionError;
    [apply index_no_DimensionError | intros k; discriminate].
Qed.

Lemma Pauli_init_no_DimensionError zv xv : no_DimensionError (Pauli_init zv xv).
Proof.
  unfold Pauli_init. destruct zv as [zs|], xv as [xs|]; try discriminate.
  destruct (_ =? _)%nat; discriminate.
Qed.

Lemma Pauli_mul_no_DimensionError a b : no_DimensionError (Pauli_mul a b).
Proof. unfold Pauli_mul. destruct (_ =? _)%nat; discriminate. Qed.

Lemma lookup_no_DimensionError g name : no_DimensionError (lookup g name).
Proof. unfold lookup. destruct (g !! name); discriminate. Qed.

Lemma as_int_no_DimensionError v : no_DimensionError (as_int v).
Proof. destruct v; discriminate. Qed.

Lemma as_vector_no_DimensionError v : no_DimensionError (as_vector v).
Proof. destruct v; discriminate. Qed.

Lemma subscript_no_DimensionError v i : no_DimensionError (subscript v i).
Proof.
  destruct v; try discriminate; cbn [subscript];
    (apply bind_no_DimensionError; [apply getitem_no_DimensionError|]);
    intros; discriminate.
Qed.

Create HintDb no_dim.
#[local] Hint Resolve Ok_no_DimensionError zeros_no_DimensionError
  zeros2_no_DimensionError getitem_no_DimensionError setitem_no_DimensionError
  Pauli_init_no_DimensionError Pauli_mul_no_DimensionError
  lookup_no_DimensionError as_int_no_DimensionError as_vector_no_DimensionError
  subscript_no_DimensionError : no_dim.

Ltac no_dim :=
  repeat (apply bind_no_DimensionError; [solve [auto with no_dim] | intros ?]);
  auto with no_dim.

Lemma pauli_x_no_DimensionError n qubit_index coeff :
  no_DimensionError (pauli_x n qubit_index coeff).
Proof. unfold pauli_x. no_dim. Qed.

Lemma product_pauli_z_no_DimensionError g q1 q2 coeff :
  no_DimensionError (product_pauli_z g q1 q2 coeff).
Proof. unfold product_pauli_z. no_dim. Qed.

Lemma pauli_z_no_DimensionError construct g n qubit_index coeff :
  (forall c v P, no_DimensionError (construct c v P)) ->
  no_DimensionError (VariationalCells.pauli_z construct g n qubit_index coeff).
Proof. intros H. unfold VariationalCells.pauli_z. no_dim. Qed.

Lemma evolve_no_DimensionError hamiltonian angle qr :
  no_DimensionError (evolve hamiltonian angle qr).
Proof.
  unfold evolve. destruct hamiltonian; try discriminate.
  destruct (is_empty op); try discriminate. destruct qr; discriminate.
Qed.

Lemma add_no_DimensionError a b : no_DimensionError (add a b).
Proof.
  destruct a, b; try discriminate. cbn [add]. unfold circuit_add.
  destruct (forallb _ _); discriminate.
Qed.

Lemma comprehension_no_DimensionError {A B} (f : A -> result B) (l : list A) :
  (forall a, no_DimensionError (f a)) -> no_DimensionError (comprehension f l).
Proof.
  intros Hf. induction l as [|a l IH]; cbn [comprehension]; [discriminate|].
  apply bind_no_DimensionError; [apply Hf | intros b].
  apply bind_no_DimensionError; [exact IH | intros bs; discriminate].
Qed.

Lemma sum_no_DimensionError items : forall start,
  no_DimensionError (sum items start).
Proof.
  induction items as [|item rest IH]; intros start; cbn [sum]; [discriminate|].
  apply bind_no_DimensionError; [apply add_no_DimensionError | intros acc; apply IH].
Qed.

#[local] Hint Resolve evolve_no_DimensionError add_no_DimensionError
  sum_no_DimensionError : no_dim.

Lemma create_circuit_no_DimensionError g beta gamma :
  no_DimensionError (create_circuit g beta gamma).
Proof.
  unfold create_circuit.
  apply bind_no_DimensionError; [auto with no_dim | intros p].
  apply bind_no_DimensionError; [auto with no_dim | intros n].
  apply bind_no_DimensionError;
    [apply comprehension_no_DimensionError; intros i; no_dim | intros items].
  no_dim.
Qed.

Lemma evaluate_circuit_no_DimensionError g beta_gamma :
  no_DimensionError (evaluate_circuit g beta_gamma).
Proof.
  unfold evaluate_circuit.
  apply bind_no_DimensionError.
  - destruct beta_gamma as [|x [|y [|w rest]]]; discriminate.
  - intros [x y]. apply bind_no_DimensionError;
      [apply create_circuit_no_DimensionError | intros c; discriminate].
Qed.




(** ** [evolve] and [create_circuit] *)

(** Every evolution that [evolve] requests has one time slice, the mode
    `trotter` and the order 3: the function has no order argument. *)
Lemma evolve_request hamiltonian angle qr c :
  evolve hamiltonian angle qr = Ok (VCircuit c) ->
  Forall (fun e => expansion_order e = 3%nat /\ expansion_mode e = "trotter"
                   /\ num_time_slices e = 1%nat /\ evo_time e = angle) (data c).
Proof.
  unfold evolve. destruct hamiltonian; try discriminate.
  destruct (is_empty op); try discriminate.
  destruct qr; try discriminate. intros [= <-]. simpl.
  constructor; [repeat split | constructor].
Qed.

Lemma lookup_Hc_globals beta0 gamma0 :
  lookup (globals beta0 gamma0) "Hc" = Raise (NameError "Hc").
Proof. vm_compute. reflexivity. Qed.

Lemma lookup_p_globals beta0 gamma0 :
  lookup (globals beta0 gamma0) "p" = Ok (VInt 1).
Proof. vm_compute. reflexivity. Qed.

(** In the notebook's namespace [Hc] is unbound (its cell stops in
    [product_pauli_z] at the unbound name [p1]), and so is [qr]. *)
Lemma cost_cell_fails :
  snd (exec (run_cells [cell_mixing]) cell_cost) = Some (NameError "p1").
Proof. vm_compute. reflexivity. Qed.

Lemma lookup_qr_globals beta0 gamma0 :
  lookup (globals beta0 gamma0) "qr" = Raise (NameError "qr").
Proof. vm_compute. reflexivity. Qed.

Lemma create_circuit_globals beta0 gamma0 beta gamma :
  create_circuit (globals beta0 gamma0) beta gamma = Raise (NameError "Hc").
Proof.
  unfold create_circuit. rewrite lookup_p_globals. simpl.
  rewrite lookup_Hc_globals. reflexivity.
Qed.

Lemma evaluate_circuit_globals beta0 gamma0 x y :
  evaluate_circuit (globals beta0 gamma0) [x; y] = Raise (NameError "Hc").
Proof.
  unfold evaluate_circuit. simpl. rewrite create_circuit_globals. reflexivity.
Qed.

Lemma evaluate_circuit_bound_globals beta0 gamma0 x y :
  evaluate_circuit (bound_globals beta0 gamma0) [x; y] = Ok VNone.
Proof. vm_compute. reflexivity. Qed.

(** [evaluate_circuit] yields [None] or an exception. *)
Lemma evaluate_circuit_cases g beta_gamma :
  evaluate_circuit g beta_gamma = Ok VNone \/
  exists e, evaluate_circuit g beta_gamma = Raise e.
Proof.
  unfold evaluate_circuit.
  destruct (unpack2 beta_gamma) as [[x y]|e]; simpl; [|right; eauto].
  destruct (create_circuit g [x] [y]); simpl; [left | right]; eauto.
Qed.

(** ** [evaluate_circuit] and the optimisation cell *)

(** C9, as stated, fails in the notebook's own namespace: the call does
    not get as far as a circuit and does not return [None]. *)
Lemma evaluate_circuit_raises :
  evaluate_circuit (globals (1 # 2) (1 # 3)) [(1 # 2)%Q; (1 # 3)%Q]
    = Raise (NameError "Hc") /\
  evaluate_circuit (globals (1 # 2) (1 # 3)) [(1 # 2)%Q; (1 # 3)%Q] <> Ok VNone.
Proof.
  rewrite evaluate_circuit_globals. split; [reflexivity | discriminate].
Qed.

(** C9, amended. For every namespace and every vector, [evaluate_circuit]
    never returns a number; on a vector of two parameters it returns
    [None] whenever its call of [create_circuit] returns, and otherwise the
    exception of [create_circuit] propagates. *)
Theorem evaluate_circuit_returns_no_number g beta_gamma :
  (forall v, evaluate_circuit g beta_gamma <> Ok (VFloat v)) /\
  (forall n, evaluate_circuit g beta_gamma <> Ok (VInt n)) /\
  (forall x y c, beta_gamma = [x; y] -> create_circuit g [x] [y] = Ok c ->
                 evaluate_circuit g beta_gamma = Ok VNone) /\
  (forall x y e, beta_gamma = [x; y] -> create_circuit g [x] [y] = Raise e ->
                 evaluate_circuit g beta_gamma = Raise e).
Proof.
  split; [|split; [|split]].
  - intros v. destruct (evaluate_circuit_cases g beta_gamma) as [-> | [e ->]];
      discriminate.
  - intros n. destruct (evaluate_circuit_cases g beta_gamma) as [-> | [e ->]];
      discriminate.
  - intros x y c -> H. unfold evaluate_circuit. simpl. rewrite H. reflexivity.
  - intros x y e -> H. unfold evaluate_circuit. simpl. rewrite H. reflexivity.
Qed.

Lemma evaluate_circuit_returns_no_number_witness :
  evaluate_circuit (bound_globals (1 # 2) (1 # 3)) [(1 # 2)%Q; (1 # 3)%Q] = Ok VNone /\
  evaluate_circuit (globals (1 # 2) (1 # 3)) [(1 # 2)%Q; (1 # 3)%Q]
    = Raise (NameError "Hc").
Proof.
  split.
  - destruct (create_circuit (bound_globals (1 # 2) (1 # 3)) [(1 # 2)%Q] [(1 # 3)%Q])
      as [c|e] eqn:E; [|vm_compute in E; discriminate E].
    exact (proj1 (proj2 (proj2 (evaluate_circuit_returns_no_number
                           (bound_globals (1 # 2) (1 # 3)) [(1 # 2)%Q; (1 # 3)%Q])))
                 (1 # 2)%Q (1 # 3)%Q c eq_refl E).
  - exact (proj2 (proj2 (proj2 (evaluate_circuit_returns_no_number
                           (globals (1 # 2) (1 # 3)) [(1 # 2)%Q; (1 # 3)%Q])))
                 (1 # 2)%Q (1 # 3)%Q (NameError "Hc") eq_refl
                 (create_circuit_globals (1 # 2) (1 # 3) [(1 # 2)%Q] [(1 # 3)%Q])).
Defined.

(** C7. The notebook evaluates no expectation value: [evaluate_circuit],
    which is documented to return the mean of [Hc], raises in the
    notebook's namespace and returns [None] once the names it reads are
    bound. *)
Theorem expectation_not_evaluated :
  forall beta0 gamma0 x y,
    evaluate_circuit (globals beta0 gamma0) [x; y] = Raise (NameError "Hc") /\
    evaluate_circuit (bound_globals beta0 gamma0) [x; y] = Ok VNone.
Proof.
  intros. split; [apply evaluate_circuit_globals | apply evaluate_circuit_bound_globals].
Qed.

(** The first thing the optimizer does is to evaluate the objective at the
    start vector: an exception raised there is the outcome of [minimize]. *)
Lemma minimize_propagates objective to_number propose converged x0 maxiter e :
  objective x0 = Raise e ->
  minimize objective to_number propose converged x0 maxiter = Raise e.
Proof.
  unfold minimize. intros H. destruct maxiter; cbn [iterate]; rewrite H; reflexivity.
Qed.

Lemma lookup_beta_globals beta0 gamma0 :
  lookup (globals beta0 gamma0) "beta" = Ok (VArray [beta0]).
Proof. vm_compute. reflexivity. Qed.

Lemma lookup_gamma_globals beta0 gamma0 :
  lookup (globals beta0 gamma0) "gamma" = Ok (VArray [gamma0]).
Proof. vm_compute. reflexivity. Qed.

Lemma minimize_cell_raises (g : gmap string value) to_number propose converged
    maxiter b c e :
  g !! "beta" = Some (VArray [b]) -> g !! "gamma" = Some (VArray [c]) ->
  evaluate_circuit g [b; c] = Raise e ->
  exec g (cell_minimize to_number propose converged maxiter) = (g, Some e).
Proof.
  intros Hb Hc He. unfold cell_minimize. cbn [exec]. unfold lookup.
  rewrite Hb, Hc. cbn [bind as_array].
  change ([b] ++ [c])%list with [b; c].
  rewrite (minimize_propagates _ _ _ _ _ _ e He). reflexivity.
Qed.

(** C2. The optimisation of the notebook produces no final expectation
    value.  Whatever the two random draws and whatever the optimizer (its
    proposal rule, its convergence test, its budget and its reading of the
    objective's value), the cell stops at the first evaluation of the
    objective with [NameError] for the name [Hc], and [result] is not
    bound. *)
Theorem minimize_returns_no_result :
  forall to_number propose converged maxiter beta0 gamma0,
    exec (globals beta0 gamma0) (cell_minimize to_number propose converged maxiter)
    = (globals beta0 gamma0, Some (NameError "Hc")) /\
    fst (exec (globals beta0 gamma0)
              (cell_minimize to_number propose converged maxiter)) !! "result" = None.
Proof.
  intros to_number propose converged maxiter beta0 gamma0.
  assert (E : exec (globals beta0 gamma0)
                (cell_minimize to_number propose converged maxiter)
              = (globals beta0 gamma0, Some (NameError "Hc"))).
  { apply (minimize_cell_raises _ _ _ _ _ beta0 gamma0).
    - vm_compute. reflexivity.
    - vm_compute. reflexivity.
    - apply evaluate_circuit_globals. }
  split; [exact E|]. rewrite E. vm_compute. reflexivity.
Qed.

End VariationalFacts.

(** * Further properties of the logic-gate notebook *)
Module LogicGatesMore.
Import Qiskit LogicGates.

Lemma bits_cases (input : string) : input ∈ bits -> input = "0" \/ input = "1".
Proof.
  unfold bits. intros H. apply list_elem_of_In in H.
  destruct H as [<- | [<- | []]]; [left | right]; reflexivity.
Qed.

Ltac bits_split H :=
  let E := fresh in destruct (bits_cases _ H) as [E | E]; rewrite E.

(** X1. [NOT] does not validate its argument: it returns on every string,
    with ['0'] exactly for the input ['1'] and ['1'] for every other string
    (the empty string and non-binary text included). *)
Theorem NOT_any_string :
  forall input,
    (NOT input = Ok "0" <-> input = "1") /\
    (NOT input = Ok "1" <-> input <> "1").
Proof.
  intros input. rewrite LogicGatesFacts.NOT_spec.
  destruct (String.eqb_spec input "1") as [E | E]; split; split;
    try congruence; try discriminate; intros; try reflexivity; contradiction.
Qed.

(** X2. On a binary string, [NOT] applied to its own output gives the input
    back. *)
Theorem NOT_involutive input (H : input ∈ bits) :
  (let! out := NOT input in NOT out) = Ok input.
Proof. bits_split H; reflexivity. Qed.

Lemma NOT_involutive_witness :
  (let! out := NOT "1" in NOT out) = Ok "1".
Proof. apply NOT_involutive. unfold bits. set_solver. Defined.

(** X3. [XOR] compares its arguments as strings, whatever they are: it
    returns ['0'] exactly when they are equal and ['1'] exactly when they
    differ, and it is symmetric. *)
Theorem XOR_any_strings :
  forall input1 input2,
    (XOR input1 input2 = Ok "0" <-> input1 = input2) /\
    (XOR input1 input2 = Ok "1" <-> input1 <> input2) /\
    XOR input1 input2 = XOR input2 input1.
Proof.
  intros input1 input2. rewrite !LogicGatesFacts.XOR_spec.
  rewrite (String.eqb_sym input2 input1).
  destruct (String.eqb_spec input1 input2) as [E | E]; repeat split;
    try congruence; try discriminate; intros; try reflexivity; contradiction.
Qed.

(** X4. The outputs of [NOT] and [XOR] are binary strings for every input,
    so the gates can be chained. *)
Theorem gate_outputs_are_bits :
  forall input1 input2,
    (exists out, NOT input1 = Ok out /\ out ∈ bits) /\
    (exists out, XOR input1 input2 = Ok out /\ out ∈ bits).
Proof.
  intros input1 input2. rewrite LogicGatesFacts.NOT_spec, LogicGatesFacts.XOR_spec.
  split.
  - destruct (String.eqb input1 "1"); eexists; split; try reflexivity;
      unfold bits; set_solver.
  - destruct (String.eqb input1 input2); eexists; split; try reflexivity;
      unfold bits; set_solver.
Qed.

(** X5. For every string, [XOR] of the input with its [NOT] is ['1']: the
    output of [NOT] never equals its input. *)
Theorem XOR_with_NOT :
  forall input, (let! out := NOT input in XOR input out) = Ok "1".
Proof.
  intros input. rewrite LogicGatesFacts.NOT_spec.
  destruct (String.eqb_spec input "1") as [E | E]; cbn [bind];
    rewrite LogicGatesFacts.XOR_spec.
  - subst. reflexivity.
  - destruct (String.eqb_spec input "1"); [contradiction | reflexivity].
Qed.

(** X6. On binary strings [XOR] is associative, and negating both inputs
    does not change its output. *)
Theorem XOR_composes input1 input2 input3
    (H1 : input1 ∈ bits) (H2 : input2 ∈ bits) (H3 : input3 ∈ bits) :
  (let! out := XOR input1 input2 in XOR out input3)
    = (let! out := XOR input2 input3 in XOR input1 out) /\
  (let! n1 := NOT input1 in let! n2 := NOT input2 in XOR n1 n2)
    = XOR input1 input2.
Proof. bits_split H1; bits_split H2; bits_split H3; split; reflexivity. Qed.

Lemma XOR_composes_witness :
  (let! out := XOR "1" "0" in XOR out "1")
    = (let! out := XOR "0" "1" in XOR "1" out).
Proof.
  apply (proj1 (XOR_composes "1" "0" "1"
                  ltac:(unfold bits; set_solver) ltac:(unfold bits; set_solver)
                  ltac:(unfold bits; set_solver))).
Defined.

(** X7. In every namespace that binds [NOT] and [XOR] to the notebook's
    functions and leaves [AND] unbound, the test cell prints the two results
    of [NOT] and the four of [XOR] and stops with [NameError] at the first
    call of [AND]; the tests of [NAND], [OR] and [FANOUT] are not reached. *)
Theorem test_cell_stops_at_AND (g : gmap string pyfun)
    (HNOT : g !! "NOT" = Some (unary NOT))
    (HXOR : g !! "XOR" = Some (binary XOR))
    (HAND : g !! "AND" = None) :
  run_tests g tests = (["1"; "0"; "0"; "1"; "1"; "0"], Some (NameError "AND")).
Proof.
  unfold tests, pairs, bits. cbn [fmap list_fmap mbind list_bind app mret list_ret].
  cbn [run_tests]. unfold call. rewrite HNOT, HXOR, HAND. reflexivity.
Qed.

Lemma test_cell_stops_at_AND_witness :
  run_tests globals tests = (["1"; "0"; "0"; "1"; "1"; "0"], Some (NameError "AND")).
Proof.
  apply test_cell_stops_at_AND; vm_compute; reflexivity.
Defined.

End LogicGatesMore.

(** * Further properties of the QAOA notebook *)
Module VariationalMore.
Import Aqua Variational VariationalCells.

(** ** Indexing, with the position made explicit *)

Lemma index_nonneg (len : nat) (i : Z) :
  0 <= i < Z.of_nat len -> i < 2 ^ 63 -> Numpy.index len i = Ok (Z.to_nat i).
Proof.
  intros H H63. unfold Numpy.index.
  rewrite VariationalFacts.int64_true by lia. cbn [negb].
  destruct (Z.leb_spec 0 i); [|lia].
  destruct (Z.ltb_spec i (Z.of_nat len)); [reflexivity | lia].
Qed.

Lemma index_from_end (len : nat) (i : Z) :
  - Z.of_nat len <= i < 0 -> - 2 ^ 63 <= i ->
  Numpy.index len i = Ok (Z.to_nat (Z.of_nat len + i)).
Proof.
  intros H H63. unfold Numpy.index.
  rewrite VariationalFacts.int64_true by lia. cbn [negb].
  destruct (Z.leb_spec 0 i); [lia|]. simpl.
  destruct (Z.leb_spec (- Z.of_nat len) i); [|lia].
  destruct (Z.ltb_spec i 0); [reflexivity | lia].
Qed.

Lemma getitem_zeros (n : nat) (i : Z) (k : nat) :
  Numpy.index n i = Ok k -> (k < n)%nat ->
  Numpy.getitem (replicate n 0%Q) i = Ok 0%Q.
Proof.
  intros Hi Hk. unfold Numpy.getitem. rewrite length_replicate, Hi. simpl.
  rewrite (lookup_replicate_2 _ _ _ Hk). reflexivity.
Qed.

Lemma pauli_x_at n qubit_index coeff k :
  0 <= n < 2 ^ 60 ->
  Numpy.index (Z.to_nat n) qubit_index = Ok k -> (k < Z.to_nat n)%nat ->
  pauli_x n qubit_index coeff
  = Ok (WeightedPauliOperator_init
          [(0%Q, x_string (Z.to_nat n) k); (coeff, x_string (Z.to_nat n) k)]).
Proof.
  intros Hn Hi Hk. unfold pauli_x. rewrite (VariationalFacts.zeros_ok n Hn).
  cbn [bind]. rewrite (getitem_zeros _ _ _ Hi Hk). cbn [bind].
  unfold Numpy.setitem. rewrite length_replicate, Hi. cbn [bind].
  unfold Pauli_init. rewrite length_insert, !length_replicate, Nat.eqb_refl.
  cbn [bind]. unfold x_string.
  rewrite list_fmap_insert, !fmap_replicate. reflexivity.
Qed.

Lemma Pauli_eqb_refl (P : Pauli) : Pauli_eqb P P = true.
Proof. unfold Pauli_eqb. rewrite !bool_decide_eq_true_2 by reflexivity. reflexivity. Qed.

(** The constructor applied to the two terms of [pauli_x]. *)
Lemma init_same_string (c : Q) (P : Pauli) :
  paulis (WeightedPauliOperator_init [(0%Q, P); (c, P)])
  = if Qeq_bool (0 + c) 0 then [] else [((0 + c)%Q, P)].
Proof.
  unfold WeightedPauliOperator_init, merge_all. cbn [paulis fold_left merge fst snd].
  rewrite Pauli_eqb_refl. cbn [List.filter]. unfold nonzero. cbn [fst].
  destruct (Qeq_bool (0 + c) 0); reflexivity.
Qed.

(** ** [pauli_x] *)





(** ** [pauli_z] *)

Ltac bind_step_to_lookup :=
  match goal with
  | |- is_ok (bind (lookup _ _) _) = false => fail 1
  | |- is_ok (bind ?m _) = false =>
      first [ reflexivity | destruct m; cbn [bind is_ok]; [|reflexivity] ]
  end.

Lemma pauli_z_not_ok construct (g : gmap string value) n i coeff :
  g !! "pauli" = None -> is_ok (pauli_z construct g n i coeff) = false.
Proof.
  intros Hg. unfold pauli_z. repeat bind_step_to_lookup.
  unfold lookup. rewrite Hg. reflexivity.
Qed.



(** ** [product_pauli_z] and the cell of the cost Hamiltonian *)

Lemma getitem_at {A} (a : list A) (i : Z) (k : nat) (v : A) :
  Numpy.index (length a) i = Ok k -> a !! k = Some v -> Numpy.getitem a i = Ok v.
Proof. intros Hi Hk. unfold Numpy.getitem. rewrite Hi. cbn [bind]. rewrite Hk. reflexivity. Qed.

Lemma setitem_at {A} (a : list A) (i : Z) (k : nat) (v : A) :
  Numpy.index (length a) i = Ok k -> Numpy.setitem a i v = Ok (<[k := v]> a).
Proof. intros Hi. unfold Numpy.setitem. rewrite Hi. reflexivity. Qed.

Lemma zeros2_ok (n : Z) :
  0 < n -> n * n < 2 ^ 60 ->
  Numpy.zeros2 n n = Ok (replicate (Z.to_nat n) (replicate (Z.to_nat n) 0%Q)).
Proof.
  intros H Hsize. unfold Numpy.zeros2, Numpy.too_big.
  destruct (Z.ltb_spec n 0); [lia|]. destruct (Z.eqb_spec n 0); [lia|].
  destruct (Z.leb_spec (2 ^ 60) (n * n)); [lia | reflexivity].
Qed.

Ltac bind_step :=
  match goal with
  | |- is_ok (bind ?m _) = false =>
      first [ reflexivity | destruct m; cbn [bind is_ok]; [|reflexivity] ]
  end.

(** X11. [product_pauli_z] returns no operator, whatever the namespace and
    the arguments: every path through its body ends in an exception (the
    last one at [Pauli(zero_n_qubit)], which is given one vector only). *)
Theorem product_pauli_z_never_returns :
  forall (g : gmap string value) q1 q2 coeff,
    is_ok (product_pauli_z g q1 q2 coeff) = false.
Proof.
  intros g q1 q2 coeff. unfold product_pauli_z. repeat bind_step.
Qed.

Lemma product_pauli_z_stops_at_p1 (g : gmap string value) n q1 q2 coeff
    (Hn : g !! "n_qubits" = Some (VInt n))
    (H1 : - n <= q1 < n) (H2 : - n <= q2 < n)
    (Hsize : n * n <= Numpy.max_elements)
    (Hp : g !! "p1" = None) :
  product_pauli_z g q1 q2 coeff = Raise (NameError "p1").
Proof.
  assert (Hsmall : 0 < n /\ n * n < 2 ^ 60 /\ n < 2 ^ 60)
    by (unfold Numpy.max_elements in Hsize; nia).
  destruct (VariationalFacts.index_in_range (Z.to_nat n) q1) as (k1 & Hk1 & Hlt1);
    [lia | lia |].
  destruct (VariationalFacts.index_in_range (Z.to_nat n) q2) as (k2 & Hk2 & Hlt2);
    [lia | lia |].
  assert (H0 : Numpy.index (Z.to_nat n) 0 = Ok 0%nat)
    by (apply index_nonneg; lia).
  unfold product_pauli_z, lookup. rewrite Hn. cbn [bind as_int].
  rewrite VariationalFacts.zeros_ok, !zeros2_ok by lia. cbn [bind].
  set (N := Z.to_nat n) in *.
  set (row0 := replicate N 0%Q).
  assert (Hrow0 : replicate N row0 !! 0%nat = Some row0)
    by (apply lookup_replicate_2; lia).
  (* particle1[0][q1] = particle1[0][q1]+1 *)
  rewrite (getitem_at (replicate N row0) 0 0%nat row0)
    by (rewrite ?length_replicate; assumption). cbn [bind].
  rewrite (getitem_at row0 q1 k1 0%Q)
    by (unfold row0; rewrite ?length_replicate; auto using lookup_replicate_2).
  cbn [bind].
  rewrite (setitem_at row0 q1 k1) by (unfold row0; rewrite length_replicate; assumption).
  cbn [bind].
  rewrite (setitem_at (replicate N row0) 0 0%nat)
    by (rewrite length_replicate; assumption).
  cbn [bind].
  set (row1 := <[k1 := (0 + 1)%Q]> row0).
  set (P1 := <[0%nat := row1]> (replicate N row0)).
  assert (Hlen1 : length row1 = N) by (unfold row1, row0; rewrite length_insert, length_replicate; reflexivity).
  assert (HlenP : length P1 = N) by (unfold P1; rewrite length_insert, length_replicate; reflexivity).
  assert (HP1 : P1 !! 0%nat = Some row1)
    by (unfold P1; apply list_lookup_insert_eq; rewrite length_replicate; lia).
  (* particle1[0][q2] = particle1[0][q1]+1 *)
  rewrite (getitem_at P1 0 0%nat row1) by (rewrite ?HlenP; assumption).
  cbn [bind].
  rewrite (getitem_at row1 q1 k1 (0 + 1)%Q)
    by (first [ rewrite Hlen1; assumption
              | unfold row1; apply list_lookup_insert_eq;
                unfold row0; rewrite length_replicate; assumption ]).
  cbn [bind].
  rewrite (setitem_at row1 q2 k2) by (rewrite Hlen1; assumption).
  cbn [bind].
  rewrite (setitem_at P1 0 0%nat) by (rewrite HlenP; assumption).
  cbn [bind]. rewrite Hp. reflexivity.
Qed.

(** X12. With [n_qubits] bound to [n], where the [n * n] elements of the
    two-dimensional arrays are at most [max_elements], with both qubit
    indices in [[-n, n)] and with [p1] unbound, [product_pauli_z] gets through
    its array updates and stops with [NameError] for the name [p1]. *)
Theorem product_pauli_z_unbound_p1 (g : gmap string value) n q1 q2 coeff
    (Hn : g !! "n_qubits" = Some (VInt n))
    (H1 : - n <= q1 < n) (H2 : - n <= q2 < n)
    (Hsize : n * n <= Numpy.max_elements)
    (Hp : g !! "p1" = None) :
  product_pauli_z g q1 q2 coeff = Raise (NameError "p1").
Proof. exact (product_pauli_z_stops_at_p1 g n q1 q2 coeff Hn H1 H2 Hsize Hp). Qed.

Lemma product_pauli_z_unbound_p1_witness :
  product_pauli_z (run_cells [cell_mixing]) 1 (-1) (-1)%Q = Raise (NameError "p1").
Proof.
  apply (product_pauli_z_unbound_p1 (run_cells [cell_mixing]) 2 1 (-1) (-1)%Q);
    first [lia | unfold Numpy.max_elements; lia | vm_compute; reflexivity].
Defined.

(** X13. In every namespace that binds [n_qubits] to an integer [n >= 1]
    with [n * n <= max_elements] and leaves [p1] unbound, the cell of the
    cost Hamiltonian binds [J] and then stops with [NameError] at the first
    call of [product_pauli_z]: it binds no [Hc]. *)
Theorem cost_cell_binds_no_Hc (g : gmap string value) n
    (Hn : g !! "n_qubits" = Some (VInt n)) (Hpos : 1 <= n)
    (Hsize : n * n <= Numpy.max_elements)
    (Hp : g !! "p1" = None) :
  exec g cell_cost
  = (<["J" := VMatrix [[0%Q; 1%Q]; [0%Q; 0%Q]]]> g, Some (NameError "p1")).
Proof.
  unfold cell_cost. cbn [exec].
  set (g' := <["J" := VMatrix [[0%Q; 1%Q]; [0%Q; 0%Q]]]> g).
  assert (Hn' : g' !! "n_qubits" = Some (VInt n))
    by (unfold g'; rewrite lookup_insert_ne; done).
  assert (HJ : g' !! "J" = Some (VMatrix [[0%Q; 1%Q]; [0%Q; 0%Q]]))
    by apply lookup_insert_eq.
  assert (Hp' : g' !! "p1" = None)
    by (unfold g'; rewrite lookup_insert_ne; done).
  unfold lookup at 1. rewrite Hn'. cbn [bind as_int].
  unfold Numpy.range. rewrite seqZ_cons by lia.
  unfold product2. cbn [mbind list_bind mret list_ret app comprehension].
  unfold lookup at 1. rewrite HJ. cbn [bind].
  change (subscript (VMatrix [[0%Q; 1%Q]; [0%Q; 0%Q]]) 0) with (Ok (VArray [0%Q; 1%Q])).
  cbn [bind].
  change (subscript (VArray [0%Q; 1%Q]) 0) with (Ok (VFloat 0%Q)).
  cbn [bind as_float].
  rewrite (product_pauli_z_stops_at_p1 g' n 0 0 _ Hn') by (lia || assumption).
  reflexivity.
Qed.

Lemma cost_cell_binds_no_Hc_witness :
  snd (exec (run_cells [cell_mixing]) cell_cost) = Some (NameError "p1") /\
  fst (exec (run_cells [cell_mixing]) cell_cost) !! "Hc" = None.
Proof.
  rewrite (cost_cell_binds_no_Hc (run_cells [cell_mixing]) 2);
    [ split; [reflexivity | vm_compute; reflexivity]
    | vm_compute; reflexivity | lia | unfold Numpy.max_elements; lia
    | vm_compute; reflexivity ].
Defined.

(** ** [create_circuit] *)

Lemma comprehension_app {A B} (f : A -> result B) (l1 l2 : list A) :
  comprehension f (l1 ++ l2)
  = (let! a := comprehension f l1 in
     let! b := comprehension f l2 in
     Ok (a ++ b)%list).
Proof.
  induction l1 as [|a l1 IH]; simpl.
  - destruct (comprehension f l2); reflexivity.
  - destruct (f a); simpl; [|reflexivity]. rewrite IH.
    destruct (comprehension f l1); simpl; [|reflexivity].
    destruct (comprehension f l2); reflexivity.
Qed.

Lemma compatible_refl (r : QuantumRegister) : compatible r r = true.
Proof. unfold compatible. rewrite Nat.eqb_refl. apply orb_true_r. Qed.

Lemma same_register_refl (r : QuantumRegister) : same_register r r = true.
Proof. unfold same_register. rewrite String.eqb_refl, Nat.eqb_refl. reflexivity. Qed.

(** The circuit of one cost step and one mixing step. *)
Lemma circuit_add_step (r : QuantumRegister) (d1 d2 : list Evolution) :
  circuit_add {| qregs := [r]; data := d1 |} {| qregs := [r]; data := d2 |}
  = Ok {| qregs := [r]; data := (d1 ++ d2)%list |}.
Proof.
  unfold circuit_add. cbn [qregs data forallb].
  rewrite compatible_refl. cbn [andb].
  rewrite filter_cons, filter_nil. cbn [existsb]. rewrite same_register_refl.
  cbn [orb negb]. rewrite decide_False by (intros []). reflexivity.
Qed.


Section CreateCircuit.
Variable g : gmap string value.
Variables hc hm : WeightedPauliOperator.
Variable r : QuantumRegister.
Variable c0 : QuantumCircuit.
Variables beta gamma : list Q.
Hypothesis HHc : g !! "Hc" = Some (VOperator hc).
Hypothesis HHm : g !! "Hm" = Some (VOperator hm).
Hypothesis Hqr : g !! "qr" = Some (VRegister r).
Hypothesis Hhc : is_empty hc = false.
Hypothesis Hhm : is_empty hm = false.

Lemma item_at (i : nat) b c :
  Z.of_nat i < 2 ^ 63 ->
  beta !! i = Some b -> gamma !! i = Some c ->
  (create_circuit_item g beta gamma) (Z.of_nat i) = Ok (VCircuit ((layer hc hm r) b c)).
Proof.
  intros H63 Hb Hc. unfold create_circuit_item, lookup. rewrite HHc, HHm, Hqr. cbn [bind].
  rewrite (getitem_at beta (Z.of_nat i) i b);
    [| apply lookup_lt_Some in Hb; rewrite index_nonneg; [f_equal; lia | lia | lia]
     | exact Hb].
  cbn [bind evolve]. rewrite Hhc. cbn [bind].
  rewrite (getitem_at gamma (Z.of_nat i) i c);
    [| apply lookup_lt_Some in Hc; rewrite index_nonneg; [f_equal; lia | lia | lia]
     | exact Hc].
  cbn [bind]. rewrite Hhm. cbn [bind add]. rewrite circuit_add_step. reflexivity.
Qed.

Lemma items_take (k : nat) :
  Z.of_nat k <= 2 ^ 63 ->
  (k <= length beta)%nat -> (k <= length gamma)%nat ->
  comprehension (create_circuit_item g beta gamma) (seqZ 0 (Z.of_nat k))
  = Ok (VCircuit <$> zip_with (layer hc hm r) (take k beta) (take k gamma)).
Proof.
  induction k as [|k IH]; intros H63 Hb Hc.
  - reflexivity.
  - rewrite seqZ_S, comprehension_app, IH by lia. cbn [bind].
    destruct (lookup_lt_is_Some_2 beta k) as [b Eb]; [lia|].
    destruct (lookup_lt_is_Some_2 gamma k) as [c Ec]; [lia|].
    change (0 + Z.of_nat k) with (Z.of_nat k).
    cbn [comprehension]. rewrite (item_at k b c ltac:(lia) Eb Ec). cbn [bind].
    rewrite (take_S_r beta k b Eb), (take_S_r gamma k c Ec).
    rewrite zip_with_app by (rewrite !length_take_le by lia; reflexivity).
    rewrite fmap_app. reflexivity.
Qed.

Lemma sum_steps (steps : list QuantumCircuit) : forall c,
  Forall (fun s => qregs s = [r]) steps ->
  forallb (fun ra => compatible ra r) (qregs c) = true ->
  exists c', sum (VCircuit <$> steps) (VCircuit c) = Ok (VCircuit c') /\
             data c' = (data c ++ concat (data <$> steps))%list.
Proof.
  induction steps as [|s steps IH]; intros c Hs Hc.
  - exists c. split; [reflexivity|]. simpl. rewrite app_nil_r. reflexivity.
  - inversion Hs as [|? ? Hs1 Hs2]; subst.
    cbn [fmap list_fmap sum add]. unfold circuit_add. rewrite Hs1.
    assert (E : forallb (fun ra => forallb (compatible ra) [r]) (qregs c) = true).
    { rewrite forallb_forall in Hc |- *. intros ra Hra. cbn [forallb].
      rewrite (Hc ra Hra). reflexivity. }
    rewrite E. cbn [bind].
    match goal with
    | |- context [sum _ (VCircuit ?c1)] =>
        destruct (IH c1 Hs2) as (c' & Hsum & Hdata); [|rewrite Hsum]
    end.
    + cbn [qregs]. rewrite forallb_app, Hc. cbn [andb].
      apply forallb_forall. intros ra Hra.
      apply list_elem_of_In, list_elem_of_filter in Hra as [_ Hra].
      apply list_elem_of_singleton in Hra. subst ra. apply compatible_refl.
    + exists c'. split; [reflexivity|]. rewrite Hdata. cbn [data fmap list_fmap concat].
      rewrite app_assoc. reflexivity.
Qed.

Lemma steps_layers bs cs :
  concat (data <$> zip_with (layer hc hm r) bs cs) = layers hc hm r bs cs.
Proof.
  unfold layers. revert cs. induction bs as [|b bs IH]; intros [|c cs];
    try reflexivity.
  cbn [zip_with fmap list_fmap concat]. rewrite IH. reflexivity.
Qed.

Lemma steps_qregs bs cs : Forall (fun s => qregs s = [r]) (zip_with (layer hc hm r) bs cs).
Proof.
  revert cs. induction bs as [|b bs IH]; intros [|c cs]; cbn [zip_with];
    constructor; [reflexivity | apply IH].
Qed.

(** X14. With [p], [Hc], [Hm], [qr] and [circuit_init] bound to an integer
    [0 <= p < 2^63], two operators that have terms and act on as many qubits
    as [qr] has, the register [qr], and a circuit whose registers agree with
    [qr], and with at least [p] angles in each list, [create_circuit] returns
    a circuit: the instructions of [circuit_init] followed, for each of the
    first [p] pairs of angles in order, by the evolution of [Hc] by the
    angle from [beta] and then the evolution of [Hm] by the angle from
    [gamma].  Angles beyond the first [p] are ignored. *)
Theorem create_circuit_layers (p : Z)
    (Hp : g !! "p" = Some (VInt p)) (Hp0 : 0 <= p < 2 ^ 63)
    (Hwc : fits hc r) (Hwm : fits hm r)
    (Hinit : g !! "circuit_init" = Some (VCircuit c0))
    (Hcompat : forallb (fun ra => compatible ra r) (qregs c0) = true)
    (Hbeta : p <= Z.of_nat (length beta))
    (Hgamma : p <= Z.of_nat (length gamma)) :
  exists c,
    create_circuit g beta gamma = Ok (VCircuit c) /\
    data c = (data c0
              ++ layers hc hm r (take (Z.to_nat p) beta) (take (Z.to_nat p) gamma))%list.
Proof.
  unfold create_circuit. unfold lookup at 1. rewrite Hp. cbn [bind as_int].
  unfold Numpy.range.
  replace (seqZ 0 p) with (seqZ 0 (Z.of_nat (Z.to_nat p)))
    by (rewrite Z2Nat.id; [trivial | lia]).
  pose proof (items_take (Z.to_nat p) ltac:(lia) ltac:(lia) ltac:(lia)) as Hitems.
  unfold create_circuit_item in Hitems. rewrite Hitems. cbn [bind].
  unfold lookup. rewrite Hinit. cbn [bind].
  destruct (sum_steps (zip_with (layer hc hm r) (take (Z.to_nat p) beta) (take (Z.to_nat p) gamma))
              c0 (steps_qregs _ _) Hcompat) as (c & Hsum & Hdata).
  rewrite Hsum. cbn [bind]. exists c. split; [reflexivity|].
  rewrite Hdata, steps_layers. reflexivity.
Qed.

End CreateCircuit.

Lemma create_circuit_layers_witness :
  exists c,
    create_circuit (bound_globals (1 # 2) (1 # 3)) [(1 # 2)%Q] [(1 # 3)%Q]
      = Ok (VCircuit c) /\
    data c = layers ising
               {| paulis := [((-1)%Q, x_string 2 0); ((-1)%Q, x_string 2 1)] |}
               {| name := "q0"; size := 2 |} [(1 # 2)%Q] [(1 # 3)%Q].
Proof.
  apply (create_circuit_layers (bound_globals (1 # 2) (1 # 3)) ising _
           {| name := "q0"; size := 2 |}
           {| qregs := [{| name := "q0"; size := 2 |}]; data := [] |}
           [(1 # 2)%Q] [(1 # 3)%Q]
           ltac:(vm_compute; reflexivity) ltac:(vm_compute; reflexivity)
           ltac:(vm_compute; reflexivity) ltac:(reflexivity) ltac:(reflexivity)
           1 ltac:(vm_compute; reflexivity) ltac:(lia)
           ltac:(repeat constructor) ltac:(repeat constructor)
           ltac:(vm_compute; reflexivity) ltac:(vm_compute; reflexivity)
           ltac:(simpl; lia) ltac:(simpl; lia)).
Defined.

(** X15. With [p] bound to an integer [p <= 0], [create_circuit] returns the
    object bound to [circuit_init] as it is, without reading [Hc], [Hm] or
    [qr] and whatever the angles. *)
Theorem create_circuit_no_layers (g : gmap string value) p v beta gamma
    (Hp : g !! "p" = Some (VInt p)) (Hp0 : p <= 0)
    (Hinit : g !! "circuit_init" = Some v) :
  create_circuit g beta gamma = Ok v.
Proof.
  unfold create_circuit, lookup. rewrite Hp. cbn [bind as_int].
  unfold Numpy.range. rewrite seqZ_nil by exact Hp0. cbn [comprehension bind].
  rewrite Hinit. reflexivity.
Qed.

Lemma create_circuit_no_layers_witness :
  create_circuit (<["p" := VInt 0]> (globals 1 1)) [] []
  = Ok (VCircuit {| qregs := [{| name := "q0"; size := 2 |}]; data := [] |}).
Proof.
  apply (create_circuit_no_layers _ 0);
    [apply lookup_insert_eq | lia | vm_compute; reflexivity].
Defined.

(** ** [evaluate_circuit] and the cells that use it *)

(** X16. [evaluate_circuit] unpacks exactly two parameters: on a vector of
    any other length (the empty one included) it raises [ValueError] before
    it reads a global name. *)
Theorem evaluate_circuit_wrong_length (g : gmap string value) beta_gamma
    (Hlen : length beta_gamma <> 2%nat) :
  evaluate_circuit g beta_gamma = Raise ValueError.
Proof.
  unfold evaluate_circuit.
  destruct beta_gamma as [|x [|y [|w rest]]]; try reflexivity.
  contradiction Hlen. reflexivity.
Qed.

Lemma evaluate_circuit_wrong_length_witness :
  evaluate_circuit (bound_globals 1 1) [1%Q; 1%Q; 1%Q] = Raise ValueError.
Proof. apply evaluate_circuit_wrong_length. simpl. lia. Defined.

(** X17. [evaluate_circuit] passes one angle per list, so it works for
    [p = 1] only: with [Hc] and [Hm] bound to operators that have terms and
    act on as many qubits as the register bound to [qr] has, and [p] bound
    to an integer [p >= 2], it raises [IndexError] at the second layer. *)
Theorem evaluate_circuit_two_layers (g : gmap string value) hc hm r p x y
    (HHc : g !! "Hc" = Some (VOperator hc))
    (HHm : g !! "Hm" = Some (VOperator hm))
    (Hqr : g !! "qr" = Some (VRegister r))
    (Hhc : is_empty hc = false) (Hhm : is_empty hm = false)
    (Hwc : fits hc r) (Hwm : fits hm r)
    (Hp : g !! "p" = Some (VInt p)) (Hp2 : 2 <= p) :
  evaluate_circuit g [x; y] = Raise IndexError.
Proof.
  unfold evaluate_circuit. cbn [unpack2 bind].
  unfold create_circuit. unfold lookup at 1. rewrite Hp. cbn [bind as_int].
  unfold Numpy.range. rewrite seqZ_cons by lia.
  rewrite (seqZ_cons (Z.succ 0)) by lia. cbn [comprehension].
  pose proof (item_at g hc hm r [x] [y] HHc HHm Hqr Hhc Hhm 0 x y
                ltac:(simpl; lia) eq_refl eq_refl) as H0.
  change (Z.of_nat 0) with 0 in H0. unfold create_circuit_item in H0.
  rewrite H0. cbn [bind].
  unfold lookup at 1. rewrite HHc. cbn [bind]. reflexivity.
Qed.

Lemma evaluate_circuit_two_layers_witness :
  evaluate_circuit (<["p" := VInt 2]> (bound_globals 1 1)) [1%Q; 1%Q]
  = Raise IndexError.
Proof.
  eapply (evaluate_circuit_two_layers _ ising
            {| paulis := [((-1)%Q, x_string 2 0); ((-1)%Q, x_string 2 1)] |}
            {| name := "q0"; size := 2 |} 2);
    [ vm_compute; reflexivity | vm_compute; reflexivity | vm_compute; reflexivity
    | reflexivity | reflexivity | repeat constructor | repeat constructor
    | apply lookup_insert_eq | lia ].
Defined.

(** ** The optimisation cell and the analysis cell *)

(** X18. In every namespace that binds [beta] and [gamma] to arrays of one
    angle each and in which [evaluate_circuit] raises an exception at these
    two angles, the optimisation cell stops with that exception, whatever
    the optimizer's parameters, and binds nothing: [result] is bound
    afterwards exactly if it was before. *)
Theorem minimize_cell_binds_nothing (g : gmap string value)
    to_number propose converged maxiter b c e
    (Hb : g !! "beta" = Some (VArray [b]))
    (Hc : g !! "gamma" = Some (VArray [c]))
    (He : evaluate_circuit g [b; c] = Raise e) :
  exec g (cell_minimize to_number propose converged maxiter) = (g, Some e) /\
  fst (exec g (cell_minimize to_number propose converged maxiter)) !! "result"
    = g !! "result".
Proof.
  rewrite (VariationalFacts.minimize_cell_raises g to_number propose converged
             maxiter b c e Hb Hc He).
  split; reflexivity.
Qed.

Lemma minimize_cell_binds_nothing_witness :
  exec (globals 1 1) (cell_minimize as_float (fun _ => []) (fun _ => true) 5)
  = (globals 1 1, Some (NameError "Hc")).
Proof.
  apply (proj1 (minimize_cell_binds_nothing (globals 1 1) as_float
                  (fun _ => []) (fun _ => true) 5 1%Q 1%Q (NameError "Hc")
                  ltac:(vm_compute; reflexivity) ltac:(vm_compute; reflexivity)
                  (VariationalFacts.evaluate_circuit_globals 1 1 1 1))).
Defined.

Lemma slice_bound_length (len k : nat) :
  (k <= len)%nat -> slice_bound len (Z.of_nat k) = k.
Proof.
  intros H. unfold slice_bound.
  destruct (Z.ltb_spec (Z.of_nat k) 0); [lia|].
  rewrite Z.min_l by lia. apply Nat2Z.id.
Qed.

(** X19. The analysis cell undoes the packing of the optimisation cell: if
    [result] holds the vector [beta ++ gamma] and [p] is the length of
    [beta], the call [create_circuit(result['x'][:p], result['x'][p:])] is
    the call [create_circuit(beta, gamma)]. *)
Theorem analysis_circuit_unpacks (g : gmap string value) beta gamma f ok
    (Hres : g !! "result" = Some (VOptimizeResult (beta ++ gamma) f ok))
    (Hp : g !! "p" = Some (VInt (Z.of_nat (length beta)))) :
  analysis_circuit g = create_circuit g beta gamma.
Proof.
  unfold analysis_circuit, lookup. rewrite Hres, Hp. cbn [bind getitem_x as_int].
  unfold slice_to, slice_from.
  rewrite slice_bound_length by (rewrite length_app; lia).
  rewrite take_app_length, drop_app_length. reflexivity.
Qed.

Lemma analysis_circuit_unpacks_witness :
  analysis_circuit
    (<["result" := VOptimizeResult [(1 # 2)%Q; (1 # 3)%Q] (-1)%Q true]>
       (bound_globals 1 1))
  = create_circuit
      (<["result" := VOptimizeResult [(1 # 2)%Q; (1 # 3)%Q] (-1)%Q true]>
         (bound_globals 1 1))
      [(1 # 2)%Q] [(1 # 3)%Q].
Proof.
  apply (analysis_circuit_unpacks _ [(1 # 2)%Q] [(1 # 3)%Q] (-1)%Q true);
    [apply lookup_insert_eq | vm_compute; reflexivity].
Defined.

(** X20. In every namespace that binds [beta] and [gamma] to arrays of one
    angle each, in which [evaluate_circuit] raises an exception at these two
    angles and in which [result] is unbound, the call of the analysis cell,
    run after the optimisation cell, raises [NameError] for the name
    [result]. *)
Theorem analysis_after_minimize (g : gmap string value)
    to_number propose converged maxiter b c e
    (Hb : g !! "beta" = Some (VArray [b]))
    (Hc : g !! "gamma" = Some (VArray [c]))
    (He : evaluate_circuit g [b; c] = Raise e)
    (Hres : g !! "result" = None) :
  analysis_circuit (fst (exec g (cell_minimize to_number propose converged maxiter)))
  = Raise (NameError "result").
Proof.
  rewrite (VariationalFacts.minimize_cell_raises g to_number propose converged
             maxiter b c e Hb Hc He).
  cbn [fst]. unfold analysis_circuit, lookup. rewrite Hres. reflexivity.
Qed.

Lemma analysis_after_minimize_witness :
  analysis_circuit
    (fst (exec (globals 1 1)
               (cell_minimize as_float (fun _ => []) (fun _ => true) 5)))
  = Raise (NameError "result").
Proof.
  apply (analysis_after_minimize (globals 1 1) as_float (fun _ => [])
           (fun _ => true) 5 1%Q 1%Q (NameError "Hc")
           ltac:(vm_compute; reflexivity) ltac:(vm_compute; reflexivity)
           (VariationalFacts.evaluate_circuit_globals 1 1 1 1)
           ltac:(vm_compute; reflexivity)).
Defined.

(** ** The namespace of the notebook *)

(** X21. Whatever the two random draws, the assignments of the cells up to
    the optimisation bind [n_qubits], [identity], [Hm], [J], [p], [beta],
    [gamma], [qub] and [circuit_init], and they bind none of [Hc], [qr],
    [p1], [p2], [pauli] and [result]. *)
Theorem globals_names :
  forall beta0 gamma0,
    Forall (fun name => is_Some (globals beta0 gamma0 !! name))
      ["n_qubits"; "identity"; "Hm"; "J"; "p"; "beta"; "gamma"; "qub";
       "circuit_init"] /\
    Forall (fun name => globals beta0 gamma0 !! name = None)
      ["Hc"; "qr"; "p1"; "p2"; "pauli"; "result"].
Proof.
  intros beta0 gamma0. split.
  - repeat constructor; vm_compute; eexists; reflexivity.
  - repeat constructor; vm_compute; reflexivity.
Qed.

End VariationalMore.
